(** * The MSSQL dialect of geoalchemy2: reflection and compilation

    A shallow embedding of [geoalchemy2/admin/dialects/mssql.py].

    - Python text is a [string]; [lower] and [upper] act on the ASCII
      letters, which is what [str.lower] and [str.upper] do on ASCII text.
    - [reflect_geometry_column] mutates the dictionary [column_info] and
      talks to the database: it runs in a small state-and-exception monad
      whose state is the dictionary together with the log of the queries
      sent so far.
    - The compilation rules mutate the function element they render and,
      for the binary constructors, the bind parameter that holds the
      payload: clause objects live in a heap and an element refers to them
      by address, so that a parameter shared by two positions is one
      object.
    - The dispatch table filled by SQLAlchemy's [compiles] decorator is a
      finite map from (function class, dialect name) to render functions. *)

From Stdlib Require Import ZArith NArith Ascii String List Lia DecimalString.
From stdpp Require Import base option list gmap strings.

Open Scope string_scope.

(** ** Python strings *)

Module PyStr.

Definition nl : string := String (ascii_of_nat 10) "".

Definition is_upper (c : ascii) : bool :=
  let n := N_of_ascii c in ((65 <=? n) && (n <=? 90))%N.

Definition is_lower (c : ascii) : bool :=
  let n := N_of_ascii c in ((97 <=? n) && (n <=? 122))%N.

Definition lower_char (c : ascii) : ascii :=
  if is_upper c then ascii_of_N (N_of_ascii c + 32) else c.

Definition upper_char (c : ascii) : ascii :=
  if is_lower c then ascii_of_N (N_of_ascii c - 32) else c.

(** [str.lower()] *)
Fixpoint lower (s : string) : string :=
  match s with
  | EmptyString => EmptyString
  | String c s' => String (lower_char c) (lower s')
  end.

(** [str.upper()] *)
Fixpoint upper (s : string) : string :=
  match s with
  | EmptyString => EmptyString
  | String c s' => String (upper_char c) (upper s')
  end.

(** [str(i)] and ["{}".format(i)] for an integer: decimal digits, with a
    leading minus sign for a negative number. *)
Definition of_int (z : Z) : string := NilZero.string_of_int (Z.to_int z).

(** Comparison of two texts that ignores the case of letters, stated
    character by character and without [lower]: two characters agree
    when they are equal or when one is a capital letter and the other
    the corresponding small letter. This is the reading of
    "case-insensitive comparison" that the code is compared against. *)
Definition capital_of (a b : ascii) : bool :=
  is_upper a && (N_of_ascii b =? N_of_ascii a + 32)%N.

Definition same_char_ignoring_case (a b : ascii) : bool :=
  Ascii.eqb a b || capital_of a b || capital_of b a.

Fixpoint eq_ignoring_case (s t : string) : bool :=
  match s, t with
  | EmptyString, EmptyString => true
  | String a s', String b t' =>
      same_char_ignoring_case a b && eq_ignoring_case s' t'
  | _, _ => false
  end.

(** Texts without a capital letter, and texts that begin with a small
    letter: the shape of the literals the code compares against. *)
Fixpoint no_capital (t : string) : bool :=
  match t with
  | EmptyString => true
  | String c t' => negb (is_upper c) && no_capital t'
  end.

Definition starts_small (t : string) : bool :=
  match t with
  | EmptyString => false
  | String c _ => is_lower c
  end.

End PyStr.

Import PyStr.

(** ** Values *)

(** A value of a result row: SQL NULL arrives as [None], text as [str],
    numbers as [int]. *)
Inductive SqlValue :=
| SqlNull
| SqlStr (s : string)
| SqlInt (z : Z).

(** [str(v)] *)
Definition sql_str (v : SqlValue) : string :=
  match v with
  | SqlNull => "None"
  | SqlStr s => s
  | SqlInt z => of_int z
  end.

(** Modelled from the spec: the [Geometry] type constructor of
    [geoalchemy2.types], which is not part of this module. It accepts the
    keyword configuration [geometry_type], [srid], [spatial_index],
    [nullable] and an internal reflection marker; the descriptor records
    them as they are passed. *)
Record GeometryArgs := Geometry_ {
  geometry_type : string;
  srid : SqlValue;
  spatial_index : bool;
  nullable : bool;
  _spatial_index_reflected : bool
}.

(** The column types the reflection guard distinguishes: the placeholder
    [NullType], the spatial types [Geometry] and [Geography] (siblings, not
    subclasses of one another), and every other type of the toolkit. *)
Inductive TypeEngine :=
| NullType
| Geometry (g : GeometryArgs)
| Geography (g : GeometryArgs)
| OtherType (type_name : string).

(** Values stored in the [column_info] dictionary. *)
Inductive PyValue :=
| PyNone
| PyStr (s : string)
| PyInt (z : Z)
| PyBool (b : bool)
| PyType (t : TypeEngine).

(** Python exceptions that can leave this module. *)
Inductive PyError :=
| NoResultFound
| MultipleResultsFound
| ValueError
| IndexError
| AttributeError.

Inductive Result (A : Type) :=
| Ok (a : A)
| Raised (e : PyError).
Arguments Ok {A} a.
Arguments Raised {A} e.

(** ** The database handle and the table descriptor *)

(** A result row: the first column and the columns after it (a SELECT has
    at least one column). *)
Definition Row : Type := SqlValue * list SqlValue.

(** Modelled from the spec: the inspector exposes a bound connection that
    executes a text query and returns its rows; [.one()] demands exactly
    one row and [.scalar()] gives the first column of the first row, or
    [None] when there is no row. *)
Record Inspector := { execute : string -> list Row }.

Record Table := { table_schema : option string; table_name : string }.

(** ** State and exceptions

    A computation over a mutable state [S] either returns a value or
    raises; in both cases the state reached so far is kept, as the
    mutations a Python function made before raising stay made. *)

Definition M (S A : Type) : Type := S -> S * Result A.

Definition ret {S A} (a : A) : M S A := fun st => (st, Ok a).

Definition raise {S A} (e : PyError) : M S A := fun st => (st, Raised e).

Definition bind {S A B} (m : M S A) (k : A -> M S B) : M S B :=
  fun st =>
    match m st with
    | (st', Ok a) => k a st'
    | (st', Raised e) => (st', Raised e)
    end.

Notation "x <- m ;; k" := (bind m (fun x => k))
  (at level 100, m at next level, right associativity).

(** The state of a reflection: the dictionary [column_info] and the log of
    the queries sent to the database. *)
Record ReflState := {
  column_info : gmap string PyValue;
  queries : list string
}.

(** [column_info.get(key)]: a missing key reads as [None]. *)
Definition dict_get (key : string) : M ReflState PyValue :=
  fun st => (st, Ok (default PyNone (column_info st !! key))).

(** [column_info[key] = v] *)
Definition dict_set (key : string) (v : PyValue) : M ReflState unit :=
  fun st =>
    ({| column_info := <[key := v]> (column_info st);
        queries := queries st |}, Ok tt).

(** [inspector.bind.execute(text(q))]: the query is sent (and logged) and
    its rows come back. *)
Definition bind_execute (inspector : Inspector) (q : string)
  : M ReflState (list Row) :=
  fun st =>
    ({| column_info := column_info st; queries := queries st ++ [q] |},
     Ok (execute inspector q)).

(** [.one()] *)
Definition one {S} (rows : list Row) : M S Row :=
  match rows with
  | [] => raise NoResultFound
  | [r] => ret r
  | _ :: _ :: _ => raise MultipleResultsFound
  end.

(** [.scalar()] *)
Definition scalar_value (rows : list Row) : SqlValue :=
  match rows with
  | [] => SqlNull
  | (v, _) :: _ => v
  end.

Definition scalar {S} (rows : list Row) : M S SqlValue :=
  ret (scalar_value rows).

(** [a, b, c = row] *)
Definition unpack3 {S} (r : Row) : M S (SqlValue * SqlValue * SqlValue) :=
  match r with
  | (a, [b; c]) => ret (a, b, c)
  | _ => raise ValueError
  end.

(** ** Reflection *)

Definition _POSSIBLE_TYPES : list string :=
  [ "geometry";
    "point";
    "linestring";
    "polygon";
    "multipoint";
    "multilinestring";
    "multipolygon";
    "geometrycollection" ].

(** [isinstance(v, (Geometry, NullType))] *)
Definition isinstance_Geometry_NullType (v : PyValue) : bool :=
  match v with
  | PyType (Geometry _) => true
  | PyType NullType => true
  | _ => false
  end.

(** Membership in the enumeration under the comparison that ignores case,
    for the reading of the specification that folds case. *)
Definition recognized_ignoring_case (s : string) : bool :=
  existsb (eq_ignoring_case s) _POSSIBLE_TYPES.

(** [v in l] for a list [l] of texts: only a text equals a text. *)
Definition py_in (v : SqlValue) (l : list string) : bool :=
  match v with
  | SqlStr s => bool_decide (s ∈ l)
  | _ => false
  end.

(** [v.upper()]: only text has the method. *)
Definition py_upper {S} (v : SqlValue) : M S string :=
  match v with
  | SqlStr s => ret (upper s)
  | _ => raise AttributeError
  end.

(** Truth value of [table.schema]: [None] and the empty text are false. *)
Definition schema_given (table : Table) : option string :=
  match table_schema table with
  | Some "" => None
  | o => o
  end.

Section Reflection.

(** The text a type object prints as; it belongs to the toolkit. *)
Variable type_str : TypeEngine -> string.

(** [str(v)], as an f-string formats a value of the dictionary. *)
Definition py_str (v : PyValue) : string :=
  match v with
  | PyNone => "None"
  | PyStr s => s
  | PyInt z => of_int z
  | PyBool true => "True"
  | PyBool false => "False"
  | PyType t => type_str t
  end.

Definition geometry_type_query (table : Table) (column_name : PyValue)
  : string :=
  nl ++
  "        SELECT " ++ nl ++
  "            DATA_TYPE, " ++ nl ++
  "            (SELECT TOP(1) [" ++ py_str column_name ++ "].STSrid FROM " ++
    match schema_given table with
    | Some schema => "[" ++ schema ++ "]."
    | None => ""
    end ++
    "[" ++ table_name table ++ "]) AS SRS_ID, " ++ nl ++
  "            IS_NULLABLE" ++ nl ++
  "        FROM INFORMATION_SCHEMA.COLUMNS" ++ nl ++
  "        WHERE " ++ nl ++
  "            " ++
    match schema_given table with
    | Some schema => "TABLE_SCHEMA = '" ++ schema ++ "' and"
    | None => ""
    end ++ nl ++
  "            TABLE_NAME = '" ++ table_name table ++ "' " ++ nl ++
  "            and " ++ nl ++
  "            COLUMN_NAME = '" ++ py_str column_name ++ "'" ++ nl ++
  "    ".

Definition has_index_query (table : Table) (column_name : PyValue)
  : string :=
  nl ++
  "        SELECT DISTINCT" ++ nl ++
  "            INDEX_TYPE" ++ nl ++
  "        FROM INFORMATION_SCHEMA.STATISTICS" ++ nl ++
  "        WHERE " ++ nl ++
  "            " ++
    match schema_given table with
    | Some schema => "TABLE_SCHEMA = '" ++ schema ++ "' and"
    | None => ""
    end ++ nl ++
  "            TABLE_NAME = '" ++ table_name table ++ "' " ++ nl ++
  "            and " ++ nl ++
  "            COLUMN_NAME = '" ++ py_str column_name ++ "'" ++ nl ++
  "    ".

(** Reflect a column of type Geometry with MSSQL dialect. *)
Definition reflect_geometry_column (inspector : Inspector) (table : Table)
  : M ReflState unit :=
  ty <- dict_get "type" ;;
  if negb (isinstance_Geometry_NullType ty) then ret tt else
  column_name <- dict_get "name" ;;
  (* Check geometry type, SRID and if the column is nullable *)
  rows <- bind_execute inspector (geometry_type_query table column_name) ;;
  row <- one rows ;;
  fields <- unpack3 row ;;
  let '(geometry_type, srid, nullable_str) := fields in
  let is_nullable := String.eqb (lower (sql_str nullable_str)) "yes" in
  if negb (py_in geometry_type _POSSIBLE_TYPES) then ret tt else
  (* Check if the column has spatial index *)
  rows' <- bind_execute inspector (has_index_query table column_name) ;;
  spatial_index_res <- scalar rows' ;;
  let spatial_index :=
    String.eqb (lower (sql_str spatial_index_res)) "spatial" in
  (* Set attributes *)
  geometry_type_upper <- py_upper geometry_type ;;
  dict_set "type"
    (PyType (Geometry {| geometry_type := geometry_type_upper;
                         srid := srid;
                         spatial_index := spatial_index;
                         nullable := is_nullable;
                         _spatial_index_reflected := true |})).

(** A call on a given dictionary, with an empty query log. *)
Definition call_reflect (inspector : Inspector) (table : Table)
    (ci : gmap string PyValue) : ReflState * Result unit :=
  reflect_geometry_column inspector table
    {| column_info := ci; queries := [] |}.

End Reflection.


(** ** Function elements and the heap of clause objects *)

(** The literal a bind parameter carries. [bytes] and [memoryview] hold the
    same kind of content and differ in mutability only. *)
Inductive Literal :=
| LitNone
| LitStr (s : string)
| LitInt (z : Z)
| LitBytes (content : list Byte.byte)
| LitMemoryview (content : list Byte.byte).

(** [memoryview.tobytes()] *)
Definition tobytes (content : list Byte.byte) : Literal := LitBytes content.

(** The argument expressions of a function element: a bind parameter has
    a [value] attribute, a column reference has none. *)
Inductive ClauseObj :=
| BindParameter (value : Literal)
| ColumnClause (column : string).

(** A call of one named spatial function: its class, its display name, the
    addresses of its argument expressions and the reference-system id of
    its result type ([element.type.srid]). *)
Record FunctionElement := {
  cls : string;
  identifier : string;
  clauses : list nat;
  type_srid : Z
}.

(** The state of a compilation: the element being rendered and the heap
    that holds the clause objects. *)
Record CompState := {
  element : FunctionElement;
  heap : gmap nat ClauseObj
}.

(** [element.identifier = name] *)
Definition set_identifier (name : string) : M CompState unit :=
  fun st =>
    ({| element := {| cls := cls (element st);
                      identifier := name;
                      clauses := clauses (element st);
                      type_srid := type_srid (element st) |};
        heap := heap st |}, Ok tt).

Definition get_element : M CompState FunctionElement :=
  fun st => (st, Ok (element st)).

Definition get_heap : M CompState (gmap nat ClauseObj) :=
  fun st => (st, Ok (heap st)).

(** [list(element.clauses)[i]]: the list is a fresh one, its items are the
    clause objects themselves; out of range raises [IndexError]. *)
Definition clause_at (i : nat) : M CompState nat :=
  fun st =>
    match clauses (element st) !! i with
    | Some a => (st, Ok a)
    | None => (st, Raised IndexError)
    end.

(** [obj.value]: only a bind parameter has the attribute. *)
Definition get_value (a : nat) : M CompState Literal :=
  fun st =>
    match heap st !! a with
    | Some (BindParameter v) => (st, Ok v)
    | _ => (st, Raised AttributeError)
    end.

(** [obj.value = v]: the object at address [a] is updated in place, so the
    change is seen through every reference to it. *)
Definition set_value (a : nat) (v : Literal) : M CompState unit :=
  fun st =>
    ({| element := element st;
        heap := <[a := BindParameter v]> (heap st) |}, Ok tt).

Section Compilation.

(** The keyword options handed through to the compiler. *)
Variable KW : Type.

(** Modelled from the spec: the active SQL compiler, whose [process]
    renders a list of child expressions, reading the clause objects. *)
Record Compiler := {
  process : gmap nat ClauseObj -> list nat -> KW -> string
}.

(** [compiler.process(element.clauses, **kw)] *)
Definition process_clauses (compiler : Compiler) (kw : KW)
  : M CompState string :=
  el <- get_element ;;
  h <- get_heap ;;
  ret (process compiler h (clauses el) kw).

(** A render function [(element, compiler, **kw) -> str]; the element is
    the one of the state. *)
Definition Render : Type := Compiler -> KW -> M CompState string.

(** *** Simple mappings *)

Definition _MSSQL_FUNCTIONS : list (string * string) :=
  [ ("ST_AsBinary", "STAsBinary");
    ("ST_AsEWKB", "STAsBinary") ].

(** The closure [_compile_mssql] made by [_compiles_mssql cls fn]. *)
Definition _compile_mssql (fn : string) : Render :=
  fun compiler kw =>
    compiled <- process_clauses compiler kw ;;
    ret ("(" ++ compiled ++ ")." ++ fn ++ "()").

(** *** Construction functions *)

Definition _compile_GeomFromText_MsSql : Render :=
  fun compiler kw =>
    _ <- set_identifier "geography::STGeomFromText" ;;
    compiled <- process_clauses compiler kw ;;
    el <- get_element ;;
    let srid := type_srid el in
    if (srid >? 0)%Z then
      ret (identifier el ++ "(" ++ compiled ++ ", " ++ of_int srid ++ ")")
    else
      ret (identifier el ++ "(" ++ compiled ++ ", 4326)").

Definition _compile_GeomFromWKB_MsSql : Render :=
  fun compiler kw =>
    _ <- set_identifier "geography::STGeomFromWKB" ;;
    first <- clause_at 0 ;;
    wkb_data <- get_value first ;;
    _ <- match wkb_data with
         | LitMemoryview content =>
             first' <- clause_at 0 ;;
             set_value first' (tobytes content)
         | _ => ret tt
         end ;;
    compiled <- process_clauses compiler kw ;;
    el <- get_element ;;
    let srid := type_srid el in
    if (srid >? 0)%Z then
      ret (identifier el ++ "(" ++ compiled ++ ", " ++ of_int srid ++ ")")
    else
      ret (identifier el ++ "(" ++ compiled ++ ")").

Definition _MSSQL_ST_GeomFromText : Render :=
  fun compiler kw => _compile_GeomFromText_MsSql compiler kw.

Definition _MSSQL_ST_GeomFromEWKT : Render :=
  fun compiler kw => _compile_GeomFromText_MsSql compiler kw.

Definition _MSSQL_ST_GeomFromWKB : Render :=
  fun compiler kw => _compile_GeomFromWKB_MsSql compiler kw.

Definition _MSSQL_ST_GeomFromEWKB : Render :=
  fun compiler kw => _compile_GeomFromWKB_MsSql compiler kw.

(** *** Registration *)

(** The names the module [geoalchemy2.functions] defines. *)
Variable functions : gset string.

(** [getattr(functions, cls)] *)
Definition getattr_functions {S} (name : string) : M S string :=
  if bool_decide (name ∈ functions) then ret name
  else raise AttributeError.

(** Modelled from the spec: SQLAlchemy's [compiles(class, dialect)]
    decorator installs a render function for the class under the
    dialect; installing again for the same pair replaces the rule. *)
Definition compiles (class dialect : string) (rule : Render)
  : M (gmap (string * string) Render) unit :=
  fun registry => (<[(class, dialect) := rule]> registry, Ok tt).

Definition _compiles_mssql (cls fn : string)
  : M (gmap (string * string) Render) unit :=
  class <- getattr_functions cls ;;
  compiles class "mssql" (_compile_mssql fn).

(** Register compilation mappings for the given functions; [mapping] is
    the sequence [mapping.items()] of a dictionary, in which no key
    occurs twice. *)
Fixpoint register_mssql_mapping (mapping : list (string * string))
  : M (gmap (string * string) Render) unit :=
  match mapping with
  | [] => ret tt
  | (cls, fn) :: rest =>
      _ <- _compiles_mssql cls fn ;;
      register_mssql_mapping rest
  end.

(** What the module-level statements after the import lines do to the
    dispatch table, top to bottom: the registration of [_MSSQL_FUNCTIONS]
    and the four decorated rules. The import statements at the head of
    the file, which can fail on their own, are not embedded. *)
Definition import_module : M (gmap (string * string) Render) unit :=
  _ <- register_mssql_mapping _MSSQL_FUNCTIONS ;;
  c1 <- getattr_functions "ST_GeomFromText" ;;
  _ <- compiles c1 "mssql" _MSSQL_ST_GeomFromText ;;
  c2 <- getattr_functions "ST_GeomFromEWKT" ;;
  _ <- compiles c2 "mssql" _MSSQL_ST_GeomFromEWKT ;;
  c3 <- getattr_functions "ST_GeomFromWKB" ;;
  _ <- compiles c3 "mssql" _MSSQL_ST_GeomFromWKB ;;
  c4 <- getattr_functions "ST_GeomFromEWKB" ;;
  compiles c4 "mssql" _MSSQL_ST_GeomFromEWKB.

(** Modelled from the spec: the toolkit's dispatch while it compiles for
    [dialect]: the rule installed for the class of the element, and the
    toolkit's own rendering [default] where none is installed. *)
Definition compile_element (registry : gmap (string * string) Render)
    (dialect : string) (default : Render) : Render :=
  fun compiler kw =>
    el <- get_element ;;
    match registry !! (cls el, dialect) with
    | Some rule => rule compiler kw
    | None => default compiler kw
    end.

End Compilation.

Arguments process {KW} _ _ _ _.
Arguments Build_Compiler {KW} _.
Arguments process_clauses {KW} _ _ _.
Arguments _compile_mssql {KW} _ _ _ _.
Arguments _compile_GeomFromText_MsSql {KW} _ _ _.
Arguments _compile_GeomFromWKB_MsSql {KW} _ _ _.
Arguments _MSSQL_ST_GeomFromText {KW} _ _ _.
Arguments _MSSQL_ST_GeomFromEWKT {KW} _ _ _.
Arguments _MSSQL_ST_GeomFromWKB {KW} _ _ _.
Arguments _MSSQL_ST_GeomFromEWKB {KW} _ _ _.
Arguments compiles {KW} _ _ _ _.
Arguments _compiles_mssql {KW} _ _ _ _.
Arguments register_mssql_mapping {KW} _ _ _.
Arguments import_module {KW} _ _.
Arguments compile_element {KW} _ _ _ _ _ _.

(** ** Concrete inputs used to exercise the definitions *)

Module Sample.

Definition type_str (t : TypeEngine) : string :=
  match t with
  | NullType => "NULL"
  | Geometry _ => "geometry"
  | Geography _ => "geography"
  | OtherType n => n
  end.

Definition lake : Table :=
  {| table_schema := Some "dbo"; table_name := "lake" |}.

Definition unreflected : gmap string PyValue :=
  <["name" := PyStr "geom"]> (<["type" := PyType NullType]> ∅).

Definition already_typed : gmap string PyValue :=
  <["name" := PyStr "id"]> (<["type" := PyType (OtherType "INTEGER")]> ∅).

(** A database that answers the metadata query for [lake.geom] with the
    given rows and every other query with the given index rows. *)
Definition database (meta index : list Row) : Inspector :=
  {| execute := fun q =>
       if String.eqb q (geometry_type_query type_str lake (PyStr "geom"))
       then meta else index |}.

Definition meta_row (data_type : string) (is_nullable : string) : Row :=
  (SqlStr data_type, [SqlInt 4326; SqlStr is_nullable]).

Definition compiler : Compiler unit :=
  {| process := fun h cl _ =>
       match cl with
       | a :: _ =>
           match h !! a with
           | Some (BindParameter (LitBytes _)) => "?"
           | Some (BindParameter (LitMemoryview _)) => "<memory>"
           | Some (BindParameter _) => "?"
           | Some (ColumnClause c) => c
           | None => ""
           end
       | [] => ""
       end |}.

Definition catalog : gset string :=
  {[ "ST_AsBinary"; "ST_AsEWKB"; "ST_GeomFromText"; "ST_GeomFromEWKT";
     "ST_GeomFromWKB"; "ST_GeomFromEWKB" ]}.

Definition call (name : string) (srid : Z) : FunctionElement :=
  {| cls := name; identifier := name; clauses := [0]; type_srid := srid |}.

Definition one_param (v : Literal) : gmap nat ClauseObj :=
  {[ 0 := BindParameter v ]}.

End Sample.


(** Closed decidable facts are settled by evaluation. *)
Ltac by_evaluation := apply (bool_decide_unpack _); vm_compute; exact I.

(** * Properties *)

(** ** Case folding *)

Lemma upper_letter_code (a : ascii) :
  is_upper a = true -> (N_of_ascii a + 32 < 256)%N.
Proof.
  unfold is_upper. intros H.
  apply andb_prop in H as [_ H]. apply N.leb_le in H. lia.
Qed.

Lemma lower_char_ignoring_case (a b : ascii) :
  is_upper b = false ->
  lower_char a = b <-> same_char_ignoring_case a b = true.
Proof.
  intros Hb. unfold lower_char, same_char_ignoring_case, capital_of.
  rewrite Hb, orb_false_r. destruct (is_upper a) eqn:Ha; simpl.
  - split.
    + intros <-. rewrite N_ascii_embedding by now apply upper_letter_code.
      rewrite N.eqb_refl. apply orb_true_r.
    + intros H. apply orb_prop in H as [H | H].
      * apply Ascii.eqb_eq in H. congruence.
      * apply N.eqb_eq in H. rewrite <- H. apply ascii_N_embedding.
  - rewrite orb_false_r. symmetry. apply Ascii.eqb_eq.
Qed.

Lemma lower_ignoring_case (t s : string) :
  no_capital t = true ->
  lower s = t <-> eq_ignoring_case s t = true.
Proof.
  revert s. induction t as [| b t IH]; intros s Ht.
  - destruct s; simpl; split; congruence.
  - simpl in Ht. apply andb_prop in Ht as [Hb Ht].
    apply negb_true_iff in Hb.
    destruct s as [| a s]; simpl; [split; congruence |].
    rewrite andb_true_iff, <- (IH s Ht), <- (lower_char_ignoring_case a b Hb).
    split; [intros [= -> ->] | intros [-> ->]]; auto.
Qed.

Lemma eqb_lower_ignoring_case (t s : string) :
  no_capital t = true ->
  String.eqb (lower s) t = eq_ignoring_case s t.
Proof.
  intros Ht. apply eq_true_iff_eq.
  rewrite String.eqb_eq. now apply lower_ignoring_case.
Qed.

(** A number never prints as a word. *)
Lemma eqb_lower_of_int (t : string) (z : Z) :
  starts_small t = true -> String.eqb (lower (of_int z)) t = false.
Proof.
  intros Ht. destruct t as [| c t]; [discriminate |]. simpl in Ht.
  apply String.eqb_neq. unfold of_int.
  destruct (Z.to_int z) as [d | d]; destruct d; simpl;
    intros [= <- _]; discriminate.
Qed.

(** The comparison [str(v).lower() == t] of the code decides whether [v]
    is a text equal to [t] up to case. *)
Lemma str_lower_eqb (t : string) (v : SqlValue) :
  no_capital t = true -> starts_small t = true ->
  String.eqb "none" t = false ->
  String.eqb (lower (sql_str v)) t =
  match v with
  | SqlStr s => eq_ignoring_case s t
  | _ => false
  end.
Proof.
  intros Hcap Hsmall Hnone. destruct v as [| s | z]; simpl.
  - exact Hnone.
  - now apply eqb_lower_ignoring_case.
  - now apply eqb_lower_of_int.
Qed.

(** ** Reflection *)

Section ReflectionFacts.

Variable type_str : TypeEngine -> string.
Variables (inspector : Inspector) (table : Table).
Variable ci : gmap string PyValue.

(** The guard of the first line, on the dictionary. *)
Lemma guard_passes_iff :
  isinstance_Geometry_NullType (default PyNone (ci !! "type")) = true <->
  ci !! "type" = Some (PyType NullType) \/
  exists g, ci !! "type" = Some (PyType (Geometry g)).
Proof.
  destruct (ci !! "type") as [[| | | | []] |]; simpl;
    (split; [intros H | intros [H | [g' H]]]); try discriminate; eauto.
Qed.

(** The guard fails: nothing is sent and nothing changes. *)
Lemma reflect_run_guarded :
  isinstance_Geometry_NullType (default PyNone (ci !! "type")) = false ->
  call_reflect type_str inspector table ci =
    ({| column_info := ci; queries := [] |}, Ok tt).
Proof.
  intros Hg. unfold call_reflect, reflect_geometry_column, bind, dict_get.
  simpl. now rewrite Hg.
Qed.

(** The metadata query does not give exactly one row: [.one()] raises and
    the exception leaves the function. *)
Lemma reflect_run_cardinality :
  isinstance_Geometry_NullType (default PyNone (ci !! "type")) = true ->
  length (execute inspector
            (geometry_type_query type_str table
               (default PyNone (ci !! "name")))) <> 1 ->
  call_reflect type_str inspector table ci =
    ({| column_info := ci;
        queries := [geometry_type_query type_str table
                      (default PyNone (ci !! "name"))] |},
     Raised
       match execute inspector
               (geometry_type_query type_str table
                  (default PyNone (ci !! "name"))) with
       | [] => NoResultFound
       | _ => MultipleResultsFound
       end).
Proof.
  intros Hg Hlen.
  unfold call_reflect, reflect_geometry_column, bind, dict_get, bind_execute.
  simpl. rewrite Hg. simpl.
  destruct (execute inspector _) as [| r [| r' rows]]; simpl in *;
    congruence.
Qed.

(** One row whose type name is not in the list: the function returns
    after the first query. *)
Lemma reflect_run_unrecognized (gt srid nv : SqlValue) :
  isinstance_Geometry_NullType (default PyNone (ci !! "type")) = true ->
  execute inspector
    (geometry_type_query type_str table (default PyNone (ci !! "name")))
    = [(gt, [srid; nv])] ->
  py_in gt _POSSIBLE_TYPES = false ->
  call_reflect type_str inspector table ci =
    ({| column_info := ci;
        queries := [geometry_type_query type_str table
                      (default PyNone (ci !! "name"))] |}, Ok tt).
Proof.
  intros Hg Hq Hin.
  unfold call_reflect, reflect_geometry_column, bind, dict_get, bind_execute.
  simpl. rewrite Hg. simpl. rewrite Hq. simpl. now rewrite Hin.
Qed.

(** One row whose type name is in the list: both queries are sent and the
    descriptor is stored under ["type"]. *)
Lemma reflect_run_recognized (s : string) (srid nv : SqlValue) :
  isinstance_Geometry_NullType (default PyNone (ci !! "type")) = true ->
  execute inspector
    (geometry_type_query type_str table (default PyNone (ci !! "name")))
    = [(SqlStr s, [srid; nv])] ->
  s ∈ _POSSIBLE_TYPES ->
  call_reflect type_str inspector table ci =
    ({| column_info :=
          <["type" :=
              PyType (Geometry
                {| geometry_type := upper s;
                   srid := srid;
                   spatial_index :=
                     String.eqb
                       (lower (sql_str (scalar_value
                          (execute inspector
                             (has_index_query type_str table
                                (default PyNone (ci !! "name")))))))
                       "spatial";
                   nullable := String.eqb (lower (sql_str nv)) "yes";
                   _spatial_index_reflected := true |})]> ci;
        queries := [geometry_type_query type_str table
                      (default PyNone (ci !! "name"));
                    has_index_query type_str table
                      (default PyNone (ci !! "name"))] |}, Ok tt).
Proof.
  intros Hg Hq Hin.
  unfold call_reflect, reflect_geometry_column, bind, dict_get, bind_execute.
  simpl. rewrite Hg. simpl. rewrite Hq. simpl.
  rewrite (bool_decide_eq_true_2 _ Hin). reflexivity.
Qed.

End ReflectionFacts.

(** C1, as the specification words it, fails: the metadata query returns
    the native type name ["POINT"], which matches ["point"] when case is
    ignored; the list holds small letters only and the membership test
    compares exactly, so the function returns after the first query and
    the placeholder type stays in [column_info]. *)
Lemma reflect_folded_name_counterexample :
  recognized_ignoring_case "POINT" = true /\
  call_reflect Sample.type_str
    (Sample.database [Sample.meta_row "POINT" "YES"] [(SqlStr "SPATIAL", [])])
    Sample.lake Sample.unreflected
  = ({| column_info := Sample.unreflected;
        queries := [geometry_type_query Sample.type_str Sample.lake
                      (PyStr "geom")] |}, Ok tt) /\
  Sample.unreflected !! "type" = Some (PyType NullType).
Proof. vm_compute. repeat split. Qed.

(** C1, amended: when the guard on the declared type passes and the
    metadata query returns one row whose native type name is, exactly as
    spelled, one of the eight names of [_POSSIBLE_TYPES], the call returns
    normally and has stored under ["type"] a new Geometry descriptor whose
    subtype is the uppercased name; no other key changes. *)
Theorem reflect_assigns_uppercased_subtype
    (type_str : TypeEngine -> string) (inspector : Inspector) (table : Table)
    (ci : gmap string PyValue) (s : string) (srid nv : SqlValue) :
  isinstance_Geometry_NullType (default PyNone (ci !! "type")) = true ->
  execute inspector
    (geometry_type_query type_str table (default PyNone (ci !! "name")))
    = [(SqlStr s, [srid; nv])] ->
  s ∈ _POSSIBLE_TYPES ->
  exists g,
    (call_reflect type_str inspector table ci).2 = Ok tt /\
    column_info (call_reflect type_str inspector table ci).1
      = <["type" := PyType (Geometry g)]> ci /\
    geometry_type g = upper s /\
    upper s ∈ ["GEOMETRY"; "POINT"; "LINESTRING"; "POLYGON"; "MULTIPOINT";
               "MULTILINESTRING"; "MULTIPOLYGON"; "GEOMETRYCOLLECTION"].
Proof.
  intros Hg Hq Hin.
  rewrite (reflect_run_recognized type_str inspector table ci s srid nv Hg Hq Hin).
  eexists. repeat split.
  clear Hq. unfold _POSSIBLE_TYPES in Hin.
  repeat (apply elem_of_cons in Hin; destruct Hin as [-> | Hin];
          [by_evaluation |]).
  inversion Hin.
Qed.

Lemma reflect_assigns_uppercased_subtype_witness :
  exists g,
    (call_reflect Sample.type_str
       (Sample.database [Sample.meta_row "multipolygon" "YES"] [])
       Sample.lake Sample.unreflected).2 = Ok tt /\
    column_info
      (call_reflect Sample.type_str
         (Sample.database [Sample.meta_row "multipolygon" "YES"] [])
         Sample.lake Sample.unreflected).1
      = <["type" := PyType (Geometry g)]> Sample.unreflected /\
    geometry_type g = upper "multipolygon" /\
    upper "multipolygon" ∈
      ["GEOMETRY"; "POINT"; "LINESTRING"; "POLYGON"; "MULTIPOINT";
       "MULTILINESTRING"; "MULTIPOLYGON"; "GEOMETRYCOLLECTION"].
Proof.
  apply (reflect_assigns_uppercased_subtype Sample.type_str
           (Sample.database [Sample.meta_row "multipolygon" "YES"] [])
           Sample.lake Sample.unreflected
           "multipolygon" (SqlInt 4326) (SqlStr "YES")).
  - vm_compute. reflexivity.
  - vm_compute. reflexivity.
  - by_evaluation.
Defined.

(** C6: when the metadata query returns one row whose native type name is
    not in the enumeration, the call returns without raising and
    [column_info], its ["type"] entry included, is what it was. *)
Theorem reflect_unrecognized_unchanged
    (type_str : TypeEngine -> string) (inspector : Inspector) (table : Table)
    (ci : gmap string PyValue) (gt srid nv : SqlValue) :
  execute inspector
    (geometry_type_query type_str table (default PyNone (ci !! "name")))
    = [(gt, [srid; nv])] ->
  (forall s, gt = SqlStr s -> s ∉ _POSSIBLE_TYPES) ->
  (call_reflect type_str inspector table ci).2 = Ok tt /\
  column_info (call_reflect type_str inspector table ci).1 = ci /\
  column_info (call_reflect type_str inspector table ci).1 !! "type"
    = ci !! "type".
Proof.
  intros Hq Hnot.
  assert (Hin : py_in gt _POSSIBLE_TYPES = false).
  { destruct gt as [| s |]; simpl; auto.
    apply bool_decide_eq_false_2. now apply Hnot. }
  destruct (isinstance_Geometry_NullType (default PyNone (ci !! "type")))
    eqn:Hg.
  - now rewrite (reflect_run_unrecognized type_str inspector table ci
                   gt srid nv Hg Hq Hin).
  - now rewrite (reflect_run_guarded type_str inspector table ci Hg).
Qed.

Lemma reflect_unrecognized_unchanged_witness :
  (call_reflect Sample.type_str
     (Sample.database [Sample.meta_row "geography" "NO"] [])
     Sample.lake Sample.unreflected).2 = Ok tt /\
  column_info
    (call_reflect Sample.type_str
       (Sample.database [Sample.meta_row "geography" "NO"] [])
       Sample.lake Sample.unreflected).1 = Sample.unreflected /\
  column_info
    (call_reflect Sample.type_str
       (Sample.database [Sample.meta_row "geography" "NO"] [])
       Sample.lake Sample.unreflected).1 !! "type"
    = Sample.unreflected !! "type".
Proof.
  apply (reflect_unrecognized_unchanged Sample.type_str
           (Sample.database [Sample.meta_row "geography" "NO"] [])
           Sample.lake Sample.unreflected
           (SqlStr "geography") (SqlInt 4326) (SqlStr "NO")).
  - vm_compute. reflexivity.
  - intros s [= <-]. by_evaluation.
Defined.

(** C7: when the declared type of the column is neither [NullType] nor a
    [Geometry], the call sends no query, leaves [column_info] as it was
    and returns at once. *)
Theorem reflect_skips_typed_column
    (type_str : TypeEngine -> string) (inspector : Inspector) (table : Table)
    (ci : gmap string PyValue) :
  ci !! "type" <> Some (PyType NullType) ->
  (forall g, ci !! "type" <> Some (PyType (Geometry g))) ->
  call_reflect type_str inspector table ci
    = ({| column_info := ci; queries := [] |}, Ok tt).
Proof.
  intros Hnull Hgeom. apply reflect_run_guarded.
  destruct (isinstance_Geometry_NullType (default PyNone (ci !! "type")))
    eqn:Hg; [| reflexivity].
  apply guard_passes_iff in Hg as [H | [g H]]; [now elim Hnull |].
  now elim (Hgeom g).
Qed.

Lemma reflect_skips_typed_column_witness :
  call_reflect Sample.type_str
    (Sample.database [Sample.meta_row "point" "YES"] [])
    Sample.lake Sample.already_typed
  = ({| column_info := Sample.already_typed; queries := [] |}, Ok tt).
Proof.
  apply (reflect_skips_typed_column Sample.type_str
           (Sample.database [Sample.meta_row "point" "YES"] [])
           Sample.lake Sample.already_typed).
  - vm_compute. discriminate.
  - intros g. vm_compute. discriminate.
Defined.

(** C8: whenever the call builds a descriptor, its nullability flag is
    true exactly when the IS_NULLABLE value of the metadata row is a text
    equal to ["yes"] up to the case of its letters; ["YES"], ["yes"] and
    ["Yes"] give true, every other value (another text, a number, NULL)
    gives false. *)
Theorem reflect_nullable_flag
    (type_str : TypeEngine -> string) (inspector : Inspector) (table : Table)
    (ci : gmap string PyValue) (s : string) (srid nv : SqlValue) :
  isinstance_Geometry_NullType (default PyNone (ci !! "type")) = true ->
  execute inspector
    (geometry_type_query type_str table (default PyNone (ci !! "name")))
    = [(SqlStr s, [srid; nv])] ->
  s ∈ _POSSIBLE_TYPES ->
  exists g,
    call_reflect type_str inspector table ci
      = ({| column_info := <["type" := PyType (Geometry g)]> ci;
            queries := [geometry_type_query type_str table
                          (default PyNone (ci !! "name"));
                        has_index_query type_str table
                          (default PyNone (ci !! "name"))] |}, Ok tt) /\
    nullable g = match nv with
                 | SqlStr t => eq_ignoring_case t "yes"
                 | _ => false
                 end /\
    (nv ∈ [SqlStr "YES"; SqlStr "yes"; SqlStr "Yes"] -> nullable g = true).
Proof.
  intros Hg Hq Hin.
  rewrite (reflect_run_recognized type_str inspector table ci s srid nv Hg Hq Hin).
  eexists. split; [reflexivity |]. simpl.
  assert (Hflag : String.eqb (lower (sql_str nv)) "yes" =
                  match nv with
                  | SqlStr t => eq_ignoring_case t "yes"
                  | _ => false
                  end) by (apply str_lower_eqb; reflexivity).
  split; [exact Hflag |].
  intros Hnv.
  repeat (apply elem_of_cons in Hnv; destruct Hnv as [-> | Hnv];
          [reflexivity |]).
  inversion Hnv.
Qed.

Lemma reflect_nullable_flag_witness :
  exists g,
    call_reflect Sample.type_str
      (Sample.database [Sample.meta_row "polygon" "Yes"] [])
      Sample.lake Sample.unreflected
      = ({| column_info :=
              <["type" := PyType (Geometry g)]> Sample.unreflected;
            queries := [geometry_type_query Sample.type_str Sample.lake
                          (default PyNone (Sample.unreflected !! "name"));
                        has_index_query Sample.type_str Sample.lake
                          (default PyNone (Sample.unreflected !! "name"))] |},
         Ok tt) /\
    nullable g = eq_ignoring_case "Yes" "yes" /\
    (SqlStr "Yes" ∈ [SqlStr "YES"; SqlStr "yes"; SqlStr "Yes"] ->
     nullable g = true).
Proof.
  apply (reflect_nullable_flag Sample.type_str
           (Sample.database [Sample.meta_row "polygon" "Yes"] [])
           Sample.lake Sample.unreflected
           "polygon" (SqlInt 4326) (SqlStr "Yes")).
  - vm_compute. reflexivity.
  - vm_compute. reflexivity.
  - by_evaluation.
Defined.

(** C9: whenever the call builds a descriptor, its spatial-index flag is
    true exactly when the value [.scalar()] reads from the index query is a
    text equal to ["spatial"] up to the case of its letters; with no index
    row the value is [None] and the flag is false, as it is for every
    other value. *)
Theorem reflect_spatial_index_flag
    (type_str : TypeEngine -> string) (inspector : Inspector) (table : Table)
    (ci : gmap string PyValue) (s : string) (srid nv : SqlValue) :
  isinstance_Geometry_NullType (default PyNone (ci !! "type")) = true ->
  execute inspector
    (geometry_type_query type_str table (default PyNone (ci !! "name")))
    = [(SqlStr s, [srid; nv])] ->
  s ∈ _POSSIBLE_TYPES ->
  exists g,
    call_reflect type_str inspector table ci
      = ({| column_info := <["type" := PyType (Geometry g)]> ci;
            queries := [geometry_type_query type_str table
                          (default PyNone (ci !! "name"));
                        has_index_query type_str table
                          (default PyNone (ci !! "name"))] |}, Ok tt) /\
    spatial_index g =
      match scalar_value
              (execute inspector
                 (has_index_query type_str table
                    (default PyNone (ci !! "name")))) with
      | SqlStr t => eq_ignoring_case t "spatial"
      | _ => false
      end /\
    (execute inspector
       (has_index_query type_str table (default PyNone (ci !! "name")))
       = [] -> spatial_index g = false).
Proof.
  intros Hg Hq Hin.
  rewrite (reflect_run_recognized type_str inspector table ci s srid nv Hg Hq Hin).
  eexists. split; [reflexivity |]. simpl.
  split.
  - apply str_lower_eqb; reflexivity.
  - intros ->. reflexivity.
Qed.

Lemma reflect_spatial_index_flag_witness :
  exists g,
    call_reflect Sample.type_str
      (Sample.database [Sample.meta_row "point" "NO"] [(SqlStr "SPATIAL", [])])
      Sample.lake Sample.unreflected
      = ({| column_info :=
              <["type" := PyType (Geometry g)]> Sample.unreflected;
            queries := [geometry_type_query Sample.type_str Sample.lake
                          (default PyNone (Sample.unreflected !! "name"));
                        has_index_query Sample.type_str Sample.lake
                          (default PyNone (Sample.unreflected !! "name"))] |},
         Ok tt) /\
    spatial_index g =
      match scalar_value
              (execute
                 (Sample.database [Sample.meta_row "point" "NO"]
                    [(SqlStr "SPATIAL", [])])
                 (has_index_query Sample.type_str Sample.lake
                    (default PyNone (Sample.unreflected !! "name")))) with
      | SqlStr t => eq_ignoring_case t "spatial"
      | _ => false
      end /\
    (execute
       (Sample.database [Sample.meta_row "point" "NO"]
          [(SqlStr "SPATIAL", [])])
       (has_index_query Sample.type_str Sample.lake
          (default PyNone (Sample.unreflected !! "name")))
       = [] -> spatial_index g = false).
Proof.
  apply (reflect_spatial_index_flag Sample.type_str
           (Sample.database [Sample.meta_row "point" "NO"]
              [(SqlStr "SPATIAL", [])])
           Sample.lake Sample.unreflected
           "point" (SqlInt 4326) (SqlStr "NO")).
  - vm_compute. reflexivity.
  - vm_compute. reflexivity.
  - by_evaluation.
Defined.

(** C10: when the metadata query returns no row or more than one row,
    [column_info] is left as it was; the query having been sent (the guard
    passed), the call ends with the error [.one()] raised, unmodified:
    [NoResultFound] for no row, [MultipleResultsFound] for several. The
    metadata query is the only one sent: there is no retry and the index
    query is not reached. *)
Theorem reflect_cardinality_error
    (type_str : TypeEngine -> string) (inspector : Inspector) (table : Table)
    (ci : gmap string PyValue) :
  length (execute inspector
            (geometry_type_query type_str table
               (default PyNone (ci !! "name")))) <> 1 ->
  column_info (call_reflect type_str inspector table ci).1 = ci /\
  (isinstance_Geometry_NullType (default PyNone (ci !! "type")) = true ->
   (call_reflect type_str inspector table ci).2
     = Raised
         match execute inspector
                 (geometry_type_query type_str table
                    (default PyNone (ci !! "name"))) with
         | [] => NoResultFound
         | _ => MultipleResultsFound
         end /\
   queries (call_reflect type_str inspector table ci).1
     = [geometry_type_query type_str table (default PyNone (ci !! "name"))]).
Proof.
  intros Hlen.
  destruct (isinstance_Geometry_NullType (default PyNone (ci !! "type")))
    eqn:Hg.
  - rewrite (reflect_run_cardinality type_str inspector table ci Hg Hlen).
    auto.
  - rewrite (reflect_run_guarded type_str inspector table ci Hg).
    split; [reflexivity | discriminate].
Qed.

Lemma reflect_cardinality_error_witness :
  column_info
    (call_reflect Sample.type_str
       (Sample.database
          [Sample.meta_row "point" "YES"; Sample.meta_row "point" "YES"] [])
       Sample.lake Sample.unreflected).1 = Sample.unreflected /\
  (call_reflect Sample.type_str
     (Sample.database
        [Sample.meta_row "point" "YES"; Sample.meta_row "point" "YES"] [])
     Sample.lake Sample.unreflected).2 = Raised MultipleResultsFound /\
  (call_reflect Sample.type_str (Sample.database [] [])
     Sample.lake Sample.unreflected).2 = Raised NoResultFound.
Proof.
  pose proof (reflect_cardinality_error Sample.type_str
                (Sample.database
                   [Sample.meta_row "point" "YES";
                    Sample.meta_row "point" "YES"] [])
                Sample.lake Sample.unreflected) as Hmany.
  pose proof (reflect_cardinality_error Sample.type_str
                (Sample.database [] [])
                Sample.lake Sample.unreflected) as Hnone.
  destruct Hmany as [Hci [Hraise _]];
    [vm_compute; discriminate | vm_compute; reflexivity |].
  destruct Hnone as [_ [Hraise' _]];
    [vm_compute; discriminate | vm_compute; reflexivity |].
  repeat split; assumption.
Defined.

(** ** Compilation *)

Section CompilationFacts.

Variable KW : Type.
Variables (compiler : Compiler KW) (kw : KW).

(** The element after a rule has renamed it. *)
Lemma compile_mssql_run (fn : string) (el : FunctionElement)
    (h : gmap nat ClauseObj) :
  _compile_mssql fn compiler kw {| element := el; heap := h |}
  = ({| element := el; heap := h |},
     Ok ("(" ++ process compiler h (clauses el) kw ++ ")." ++ fn ++ "()")).
Proof. reflexivity. Qed.

Lemma compile_text_run (el : FunctionElement) (h : gmap nat ClauseObj) :
  _compile_GeomFromText_MsSql compiler kw {| element := el; heap := h |}
  = ({| element := {| cls := cls el;
                      identifier := "geography::STGeomFromText";
                      clauses := clauses el;
                      type_srid := type_srid el |};
        heap := h |},
     Ok ("geography::STGeomFromText(" ++ process compiler h (clauses el) kw
         ++ ", "
         ++ (if (0 <? type_srid el)%Z then of_int (type_srid el) else "4326")
         ++ ")")).
Proof.
  unfold _compile_GeomFromText_MsSql, bind, set_identifier, process_clauses,
    bind, get_element, get_heap, ret. simpl.
  rewrite Z.gtb_ltb. now destruct (0 <? type_srid el)%Z.
Qed.

Lemma compile_wkb_run (el : FunctionElement) (h : gmap nat ClauseObj)
    (a : nat) (rest : list nat) (v : Literal) :
  clauses el = a :: rest ->
  h !! a = Some (BindParameter v) ->
  _compile_GeomFromWKB_MsSql compiler kw {| element := el; heap := h |}
  = ({| element := {| cls := cls el;
                      identifier := "geography::STGeomFromWKB";
                      clauses := clauses el;
                      type_srid := type_srid el |};
        heap := match v with
                | LitMemoryview content =>
                    <[a := BindParameter (LitBytes content)]> h
                | _ => h
                end |},
     Ok ("geography::STGeomFromWKB("
         ++ process compiler
              match v with
              | LitMemoryview content =>
                  <[a := BindParameter (LitBytes content)]> h
              | _ => h
              end (clauses el) kw
         ++ (if (0 <? type_srid el)%Z
             then ", " ++ of_int (type_srid el) else "")
         ++ ")")).
Proof.
  intros Hcl Hh.
  unfold _compile_GeomFromWKB_MsSql, bind, set_identifier, clause_at,
    get_value, process_clauses, bind, get_element, get_heap, ret.
  simpl. rewrite Hcl. simpl. rewrite Hh.
  destruct v; simpl; rewrite ?Hcl; simpl; rewrite Z.gtb_ltb;
    now destruct (0 <? type_srid el)%Z.
Qed.

(** Dispatch runs the rule installed for the class of the element. *)
Lemma compile_element_rule (registry : gmap (string * string) (Render KW))
    (dialect : string) (default rule : Render KW) (el : FunctionElement)
    (h : gmap nat ClauseObj) :
  registry !! (cls el, dialect) = Some rule ->
  compile_element registry dialect default compiler kw
    {| element := el; heap := h |}
  = rule compiler kw {| element := el; heap := h |}.
Proof.
  intros Hrule. unfold compile_element, bind, get_element.
  cbv beta iota. cbn [element]. unfold Render in *. now rewrite Hrule.
Qed.

Variable functions : gset string.

Lemma getattr_functions_run {S} (name : string) (st : S) :
  name ∈ functions -> getattr_functions functions name st = (st, Ok name).
Proof.
  intros Hin. unfold getattr_functions.
  now rewrite (bool_decide_eq_true_2 _ Hin).
Qed.

(** Registering a mapping whose names all exist succeeds; a key of the
    dispatch table that the mapping does not name keeps its rule, and a
    name the mapping holds once gets the method-call rule. *)
Lemma register_mssql_mapping_run (mapping : list (string * string)) :
  (forall name fn, (name, fn) ∈ mapping -> name ∈ functions) ->
  forall registry : gmap (string * string) (Render KW),
    (register_mssql_mapping functions mapping registry).2 = Ok tt /\
    (forall key,
       (forall name, name ∈ mapping.*1 -> key <> (name, "mssql")) ->
       (register_mssql_mapping functions mapping registry).1 !! key
         = registry !! key) /\
    (NoDup mapping.*1 ->
     forall name fn, (name, fn) ∈ mapping ->
       (register_mssql_mapping functions mapping registry).1
         !! (name, "mssql") = Some (_compile_mssql fn)).
Proof.
  induction mapping as [| [c f] rest IH]; intros Hcat registry.
  - repeat split; auto. intros _ name fn Hin. inversion Hin.
  - assert (Hc : c ∈ functions) by (apply (Hcat c f); left).
    assert (Hrest : forall name fn, (name, fn) ∈ rest -> name ∈ functions)
      by (intros name fn Hin; apply (Hcat name fn); now right).
    assert (Hstep :
      register_mssql_mapping functions ((c, f) :: rest) registry
      = register_mssql_mapping functions rest
          (<[(c, "mssql") := _compile_mssql f]> registry)).
    { simpl. unfold bind at 1. unfold _compiles_mssql, bind.
      now rewrite (getattr_functions_run c registry Hc). }
    rewrite Hstep.
    destruct (IH Hrest (<[(c, "mssql") := _compile_mssql f]> registry))
      as (Hok & Hframe & Hnew).
    split; [exact Hok |]. split.
    + intros key Hkey. rewrite Hframe.
      * apply lookup_insert_ne. intros Heq.
        apply (Hkey c); [left | congruence].
      * intros name Hin. apply Hkey. now right.
    + intros Hnd name fn Hin. simpl in Hnd.
      apply NoDup_cons in Hnd as [Hfresh Hnd].
      apply elem_of_cons in Hin as [[= -> ->] | Hin].
      * rewrite Hframe; [apply lookup_insert_eq |].
        intros name Hname [= <-]. contradiction.
      * now apply Hnew.
Qed.

(** Importing the module, given that the six function classes exist. *)
Lemma import_module_run (registry : gmap (string * string) (Render KW)) :
  (forall name,
     name ∈ ["ST_AsBinary"; "ST_AsEWKB"; "ST_GeomFromText";
             "ST_GeomFromEWKT"; "ST_GeomFromWKB"; "ST_GeomFromEWKB"] ->
     name ∈ functions) ->
  import_module functions registry
  = (<[("ST_GeomFromEWKB", "mssql") := _MSSQL_ST_GeomFromEWKB]>
       (<[("ST_GeomFromWKB", "mssql") := _MSSQL_ST_GeomFromWKB]>
          (<[("ST_GeomFromEWKT", "mssql") := _MSSQL_ST_GeomFromEWKT]>
             (<[("ST_GeomFromText", "mssql") := _MSSQL_ST_GeomFromText]>
                (<[("ST_AsEWKB", "mssql") := _compile_mssql "STAsBinary"]>
                   (<[("ST_AsBinary", "mssql") := _compile_mssql "STAsBinary"]>
                      registry))))),
     Ok tt).
Proof.
  intros Hcat.
  unfold import_module, _MSSQL_FUNCTIONS, register_mssql_mapping,
    _compiles_mssql, bind, compiles, ret.
  repeat (rewrite getattr_functions_run by (apply Hcat; by_evaluation);
          cbv beta iota).
  reflexivity.
Qed.

End CompilationFacts.

(** Without a literal in first position the binary rule raises: a column
    reference has no [value] attribute, an empty argument list no first
    item. The rendering theorems below are about calls whose first
    argument is a bind parameter. *)
Lemma compile_wkb_needs_literal {KW} (compiler : Compiler KW) (kw : KW)
    (el : FunctionElement) (h : gmap nat ClauseObj) :
  (clauses el = [] ->
   (_compile_GeomFromWKB_MsSql compiler kw
      {| element := el; heap := h |}).2 = Raised IndexError) /\
  (forall a rest c,
     clauses el = a :: rest -> h !! a = Some (ColumnClause c) ->
     (_compile_GeomFromWKB_MsSql compiler kw
        {| element := el; heap := h |}).2 = Raised AttributeError).
Proof.
  split.
  - intros Hcl.
    unfold _compile_GeomFromWKB_MsSql, bind, set_identifier, clause_at.
    simpl. now rewrite Hcl.
  - intros a rest c Hcl Hh.
    unfold _compile_GeomFromWKB_MsSql, bind, set_identifier, clause_at,
      get_value.
    simpl. rewrite Hcl. simpl. now rewrite Hh.
Qed.

(** C2: once the module is imported, compiling an [ST_GeomFromText] or
    [ST_GeomFromEWKT] element for the mssql dialect renders
    [geography::STGeomFromText(<compiled arguments>, <srid>)], where
    [<srid>] is the reference-system id of the element's type when it is
    positive and [4326] otherwise; the element's display name is rewritten
    and the clause objects are left alone. *)
Theorem from_text_rendering {KW : Type} (functions : gset string)
    (registry : gmap (string * string) (Render KW))
    (default : Render KW) (compiler : Compiler KW) (kw : KW)
    (el : FunctionElement) (h : gmap nat ClauseObj) :
  (forall name,
     name ∈ ["ST_AsBinary"; "ST_AsEWKB"; "ST_GeomFromText";
             "ST_GeomFromEWKT"; "ST_GeomFromWKB"; "ST_GeomFromEWKB"] ->
     name ∈ functions) ->
  cls el ∈ ["ST_GeomFromText"; "ST_GeomFromEWKT"] ->
  (import_module functions registry).2 = Ok tt /\
  compile_element (import_module functions registry).1 "mssql" default
    compiler kw {| element := el; heap := h |}
  = ({| element := {| cls := cls el;
                      identifier := "geography::STGeomFromText";
                      clauses := clauses el;
                      type_srid := type_srid el |};
        heap := h |},
     Ok ("geography::STGeomFromText(" ++ process compiler h (clauses el) kw
         ++ ", "
         ++ (if (0 <? type_srid el)%Z then of_int (type_srid el) else "4326")
         ++ ")")).
Proof.
  intros Hcat Hcls. rewrite (import_module_run KW functions registry Hcat).
  split; [reflexivity |].
  cbn [fst].
  rewrite (compile_element_rule KW compiler kw _ "mssql" default
             _compile_GeomFromText_MsSql).
  - apply compile_text_run.
  - apply elem_of_cons in Hcls as [-> | Hcls];
      [| apply list_elem_of_singleton in Hcls as ->].
    + now rewrite !lookup_insert_ne, lookup_insert_eq by discriminate.
    + now rewrite !lookup_insert_ne, lookup_insert_eq by discriminate.
Qed.

Lemma from_text_rendering_witness :
  (import_module (KW := unit) Sample.catalog ∅).2 = Ok tt /\
  compile_element (import_module Sample.catalog ∅).1 "mssql"
    (fun _ _ => ret "") Sample.compiler tt
    {| element := Sample.call "ST_GeomFromEWKT" 0;
       heap := Sample.one_param (LitStr "POINT(1 2)") |}
  = ({| element := {| cls := "ST_GeomFromEWKT";
                      identifier := "geography::STGeomFromText";
                      clauses := [0];
                      type_srid := 0 |};
        heap := Sample.one_param (LitStr "POINT(1 2)") |},
     Ok "geography::STGeomFromText(?, 4326)").
Proof.
  apply (from_text_rendering Sample.catalog ∅ (fun _ _ => ret "")
           Sample.compiler tt (Sample.call "ST_GeomFromEWKT" 0)
           (Sample.one_param (LitStr "POINT(1 2)"))).
  - intros name Hname.
    repeat (apply elem_of_cons in Hname; destruct Hname as [-> | Hname];
            [by_evaluation |]).
    inversion Hname.
  - by_evaluation.
Defined.




(** C4: in the binary rule, a memoryview held by the first argument is
    replaced, in the bind parameter itself, by the bytes of the same
    content before the arguments are compiled; the compiler reads the heap
    with the bytes in it, and the call gives the same SQL text (and leaves
    the same state) as the call on the heap where that parameter held the
    bytes from the start. *)
Theorem memoryview_normalized {KW : Type} (compiler : Compiler KW) (kw : KW)
    (el : FunctionElement) (h : gmap nat ClauseObj)
    (a : nat) (rest : list nat) (content : list Byte.byte) :
  clauses el = a :: rest ->
  h !! a = Some (BindParameter (LitMemoryview content)) ->
  heap (_compile_GeomFromWKB_MsSql compiler kw
          {| element := el; heap := h |}).1
    = <[a := BindParameter (LitBytes content)]> h /\
  (_compile_GeomFromWKB_MsSql compiler kw {| element := el; heap := h |}).2
    = Ok ("geography::STGeomFromWKB("
          ++ process compiler (<[a := BindParameter (LitBytes content)]> h)
               (clauses el) kw
          ++ (if (0 <? type_srid el)%Z
              then ", " ++ of_int (type_srid el) else "")
          ++ ")") /\
  _compile_GeomFromWKB_MsSql compiler kw {| element := el; heap := h |}
    = _compile_GeomFromWKB_MsSql compiler kw
        {| element := el;
           heap := <[a := BindParameter (LitBytes content)]> h |}.
Proof.
  intros Hcl Hh.
  rewrite (compile_wkb_run KW compiler kw el h a rest _ Hcl Hh).
  rewrite (compile_wkb_run KW compiler kw el
             (<[a := BindParameter (LitBytes content)]> h) a rest
             (LitBytes content) Hcl (lookup_insert_eq _ _ _)).
  repeat split.
Qed.

Lemma memoryview_normalized_witness :
  heap (_compile_GeomFromWKB_MsSql Sample.compiler tt
          {| element := Sample.call "ST_GeomFromWKB" 3857;
             heap := Sample.one_param (LitMemoryview [Byte.x01]) |}).1
    = <[0 := BindParameter (LitBytes [Byte.x01])]>
        (Sample.one_param (LitMemoryview [Byte.x01])) /\
  (_compile_GeomFromWKB_MsSql Sample.compiler tt
     {| element := Sample.call "ST_GeomFromWKB" 3857;
        heap := Sample.one_param (LitMemoryview [Byte.x01]) |}).2
    = Ok ("geography::STGeomFromWKB("
          ++ process Sample.compiler
               (<[0 := BindParameter (LitBytes [Byte.x01])]>
                  (Sample.one_param (LitMemoryview [Byte.x01])))
               [0] tt
          ++ ", " ++ of_int 3857 ++ ")") /\
  _compile_GeomFromWKB_MsSql Sample.compiler tt
    {| element := Sample.call "ST_GeomFromWKB" 3857;
       heap := Sample.one_param (LitMemoryview [Byte.x01]) |}
    = _compile_GeomFromWKB_MsSql Sample.compiler tt
        {| element := Sample.call "ST_GeomFromWKB" 3857;
           heap := <[0 := BindParameter (LitBytes [Byte.x01])]>
                     (Sample.one_param (LitMemoryview [Byte.x01])) |}.
Proof.
  apply (memoryview_normalized Sample.compiler tt
           (Sample.call "ST_GeomFromWKB" 3857)
           (Sample.one_param (LitMemoryview [Byte.x01])) 0 []
           [Byte.x01]).
  - reflexivity.
  - vm_compute. reflexivity.
Defined.

(** C5: after [register_mssql_mapping] has run on a mapping whose
    function names exist, compiling for the mssql dialect an element of a
    function the mapping names renders the compiled arguments in
    parentheses followed by the call of the native method:
    [(<compiled arguments>).<native name>()]. With the entry
    ["ST_AsBinary": "STAsBinary"] an [ST_AsBinary] element renders as
    [(<compiled arguments>).STAsBinary()]. *)
Theorem register_mssql_mapping_renders {KW : Type} (functions : gset string)
    (mapping : list (string * string))
    (registry : gmap (string * string) (Render KW))
    (name fn : string)
    (default : Render KW) (compiler : Compiler KW) (kw : KW)
    (el : FunctionElement) (h : gmap nat ClauseObj) :
  NoDup mapping.*1 ->
  (forall name' fn', (name', fn') ∈ mapping -> name' ∈ functions) ->
  (name, fn) ∈ mapping ->
  cls el = name ->
  (register_mssql_mapping functions mapping registry).2 = Ok tt /\
  compile_element (register_mssql_mapping functions mapping registry).1
    "mssql" default compiler kw {| element := el; heap := h |}
  = ({| element := el; heap := h |},
     Ok ("(" ++ process compiler h (clauses el) kw ++ ")." ++ fn ++ "()")).
Proof.
  intros Hnd Hcat Hin Hcls.
  destruct (register_mssql_mapping_run KW functions mapping Hcat registry)
    as (Hok & _ & Hnew).
  split; [exact Hok |].
  rewrite (compile_element_rule KW compiler kw _ "mssql" default
             (_compile_mssql fn)).
  - apply compile_mssql_run.
  - rewrite Hcls. now apply Hnew.
Qed.

Lemma register_mssql_mapping_renders_witness :
  (register_mssql_mapping (KW := unit) Sample.catalog
     [("ST_AsBinary", "STAsBinary")] ∅).2 = Ok tt /\
  compile_element
    (register_mssql_mapping Sample.catalog [("ST_AsBinary", "STAsBinary")] ∅).1
    "mssql" (fun _ _ => ret "") Sample.compiler tt
    {| element := Sample.call "ST_AsBinary" 4326;
       heap := {[ 0 := ColumnClause "geom" ]} |}
  = ({| element := Sample.call "ST_AsBinary" 4326;
        heap := {[ 0 := ColumnClause "geom" ]} |},
     Ok "(geom).STAsBinary()").
Proof.
  refine (register_mssql_mapping_renders Sample.catalog
            [("ST_AsBinary", "STAsBinary")] ∅ "ST_AsBinary" "STAsBinary"
            (fun _ _ => ret "") Sample.compiler tt
            (Sample.call "ST_AsBinary" 4326)
            {[ 0 := ColumnClause "geom" ]} _ _ _ _).
  - by_evaluation.
  - intros name' fn' Hin.
    apply list_elem_of_singleton in Hin as [= -> ->]. by_evaluation.
  - by_evaluation.
  - reflexivity.
Defined.

(** * Further properties of the reflection *)

Lemma lower_upper_char (c : ascii) :
  is_upper c = false -> lower_char (upper_char c) = c.
Proof.
  destruct c as [[] [] [] [] [] [] [] []]; vm_compute; congruence.
Qed.

(** Lowering an uppercased text gives it back when it had no capital. *)
Lemma lower_upper (s : string) :
  no_capital s = true -> lower (upper s) = s.
Proof.
  induction s as [| c s IH]; simpl; [reflexivity |].
  intros H. apply andb_prop in H as [Hc Hs]. apply negb_true_iff in Hc.
  now rewrite lower_upper_char, IH.
Qed.

Section ReflectionCases.

Variable type_str : TypeEngine -> string.
Variables (inspector : Inspector) (table : Table).
Variable ci : gmap string PyValue.

Local Abbreviation q1 :=
  (geometry_type_query type_str table (default PyNone (ci !! "name"))).
Local Abbreviation q2 :=
  (has_index_query type_str table (default PyNone (ci !! "name"))).

(** One row that does not have three columns: the unpacking raises. *)
Lemma reflect_run_unpack (a : SqlValue) (cols : list SqlValue) :
  isinstance_Geometry_NullType (default PyNone (ci !! "type")) = true ->
  execute inspector q1 = [(a, cols)] ->
  length cols <> 2 ->
  call_reflect type_str inspector table ci
    = ({| column_info := ci; queries := [q1] |}, Raised ValueError).
Proof.
  intros Hg Hq Hlen.
  unfold call_reflect, reflect_geometry_column, bind, dict_get, bind_execute.
  simpl. rewrite Hg. simpl. rewrite Hq. simpl.
  destruct cols as [| b [| c [| d cols]]]; simpl in *; congruence.
Qed.

(** The five ways a call can go. *)
Lemma reflect_cases :
  (isinstance_Geometry_NullType (default PyNone (ci !! "type")) = false /\
   call_reflect type_str inspector table ci
     = ({| column_info := ci; queries := [] |}, Ok tt))
  \/ (exists e,
        call_reflect type_str inspector table ci
          = ({| column_info := ci; queries := [q1] |}, Raised e))
  \/ call_reflect type_str inspector table ci
       = ({| column_info := ci; queries := [q1] |}, Ok tt)
  \/ (exists s srid nv,
        isinstance_Geometry_NullType (default PyNone (ci !! "type")) = true /\
        execute inspector q1 = [(SqlStr s, [srid; nv])] /\
        s ∈ _POSSIBLE_TYPES /\
        call_reflect type_str inspector table ci
          = ({| column_info :=
                  <["type" :=
                      PyType (Geometry
                        {| geometry_type := upper s;
                           srid := srid;
                           spatial_index :=
                             String.eqb
                               (lower (sql_str
                                  (scalar_value (execute inspector q2))))
                               "spatial";
                           nullable := String.eqb (lower (sql_str nv)) "yes";
                           _spatial_index_reflected := true |})]> ci;
                queries := [q1; q2] |}, Ok tt)).
Proof.
  destruct (isinstance_Geometry_NullType (default PyNone (ci !! "type")))
    eqn:Hg.
  2: { left. split; [reflexivity | now apply reflect_run_guarded]. }
  right.
  destruct (decide (length (execute inspector q1) = 1)) as [Hlen | Hlen].
  2: { left. eexists. now apply reflect_run_cardinality. }
  destruct (execute inspector q1) as [| [a cols] [| r rows]] eqn:Hq;
    try discriminate.
  destruct (decide (length cols = 2)) as [Hcols | Hcols].
  2: { left. eexists. now apply reflect_run_unpack with (a := a) (cols := cols). }
  destruct cols as [| srid [| nv [| d cols]]]; try discriminate.
  right.
  destruct (py_in a _POSSIBLE_TYPES) eqn:Hin.
  - right. destruct a as [| s |]; try discriminate.
    apply bool_decide_eq_true_1 in Hin.
    exists s, srid, nv. repeat split; auto.
    now apply reflect_run_recognized.
  - left. now apply reflect_run_unrecognized with (gt := a) (srid := srid)
                                                   (nv := nv).
Qed.

End ReflectionCases.

(** X1: whatever the database answers and however the call ends, the only
    key of [column_info] a call can change is ["type"]. *)
Theorem reflect_changes_only_type
    (type_str : TypeEngine -> string) (inspector : Inspector) (table : Table)
    (ci : gmap string PyValue) (key : string) :
  key <> "type" ->
  column_info (call_reflect type_str inspector table ci).1 !! key
    = ci !! key.
Proof.
  intros Hkey.
  destruct (reflect_cases type_str inspector table ci)
    as [[_ ->] | [[e ->] | [-> | (s & srid & nv & _ & _ & _ & ->)]]];
    cbn [fst column_info]; try reflexivity.
  now apply lookup_insert_ne.
Qed.

Lemma reflect_changes_only_type_witness :
  column_info
    (call_reflect Sample.type_str
       (Sample.database [Sample.meta_row "point" "YES"] [])
       Sample.lake Sample.unreflected).1 !! "name"
    = Sample.unreflected !! "name".
Proof.
  apply (reflect_changes_only_type Sample.type_str
           (Sample.database [Sample.meta_row "point" "YES"] [])
           Sample.lake Sample.unreflected "name").
  vm_compute. discriminate.
Defined.


(** X3: a call that changes [column_info] is a call whose guard passed and
    whose metadata query returned exactly one row, of three columns, with
    a native type name of [_POSSIBLE_TYPES]; the change is then the
    assignment of a Geometry descriptor built with the uppercased name and
    the reflection marker. No descriptor is ever given to a column of
    another native type. *)
Theorem reflect_assigns_only_recognized
    (type_str : TypeEngine -> string) (inspector : Inspector) (table : Table)
    (ci : gmap string PyValue) :
  column_info (call_reflect type_str inspector table ci).1 = ci \/
  exists s probed nv g,
    isinstance_Geometry_NullType (default PyNone (ci !! "type")) = true /\
    execute inspector
      (geometry_type_query type_str table (default PyNone (ci !! "name")))
      = [(SqlStr s, [probed; nv])] /\
    s ∈ _POSSIBLE_TYPES /\
    column_info (call_reflect type_str inspector table ci).1
      = <["type" := PyType (Geometry g)]> ci /\
    geometry_type g = upper s /\
    _spatial_index_reflected g = true.
Proof.
  destruct (reflect_cases type_str inspector table ci)
    as [[_ ->] | [[e ->] | [-> | (s & probed & nv & Hg & Hq & Hin & ->)]]];
    cbn [fst column_info]; auto.
  right. exists s, probed, nv. eexists. repeat split; eauto.
Qed.

(** X4: reflecting again, against the same database, the column a call has
    just reflected changes nothing more: the second call leaves the
    dictionary of the first and ends the same way. *)
Theorem reflect_idempotent
    (type_str : TypeEngine -> string) (inspector : Inspector) (table : Table)
    (ci : gmap string PyValue) :
  column_info
    (call_reflect type_str inspector table
       (column_info (call_reflect type_str inspector table ci).1)).1
    = column_info (call_reflect type_str inspector table ci).1 /\
  (call_reflect type_str inspector table
     (column_info (call_reflect type_str inspector table ci).1)).2
    = (call_reflect type_str inspector table ci).2.
Proof.
  destruct (reflect_cases type_str inspector table ci)
    as [[_ H] | [[e H] | [H | (s & probed & nv & Hg & Hq & Hin & H)]]];
    rewrite H; cbn [fst snd column_info]; try (now rewrite H).
  set (g := PyType (Geometry _)).
  assert (Hname : (<["type" := g]> ci) !! "name" = ci !! "name")
    by now apply lookup_insert_ne.
  rewrite (reflect_run_recognized type_str inspector table
             (<["type" := g]> ci) s probed nv).
  - cbn [fst snd column_info]. rewrite Hname.
    split; [| reflexivity]. subst g. apply insert_insert_eq.
  - now rewrite lookup_insert_eq.
  - now rewrite Hname.
  - exact Hin.
Qed.

(** X5: the subtype stored by a call, put back in small letters, is the
    native type name the database returned. *)
Theorem reflect_subtype_round_trip
    (type_str : TypeEngine -> string) (inspector : Inspector) (table : Table)
    (ci : gmap string PyValue) (s : string) (probed nv : SqlValue) :
  isinstance_Geometry_NullType (default PyNone (ci !! "type")) = true ->
  execute inspector
    (geometry_type_query type_str table (default PyNone (ci !! "name")))
    = [(SqlStr s, [probed; nv])] ->
  s ∈ _POSSIBLE_TYPES ->
  exists g,
    column_info (call_reflect type_str inspector table ci).1 !! "type"
      = Some (PyType (Geometry g)) /\
    lower (geometry_type g) = s.
Proof.
  intros Hg Hq Hin.
  rewrite (reflect_run_recognized type_str inspector table ci s probed nv
             Hg Hq Hin).
  eexists. split; [apply lookup_insert_eq |]. cbn [geometry_type].
  apply lower_upper. clear Hq. unfold _POSSIBLE_TYPES in Hin.
  repeat (apply elem_of_cons in Hin; destruct Hin as [-> | Hin];
          [reflexivity |]).
  inversion Hin.
Qed.

Lemma reflect_subtype_round_trip_witness :
  exists g,
    column_info
      (call_reflect Sample.type_str
         (Sample.database [Sample.meta_row "linestring" "NO"] [])
         Sample.lake Sample.unreflected).1 !! "type"
      = Some (PyType (Geometry g)) /\
    lower (geometry_type g) = "linestring".
Proof.
  apply (reflect_subtype_round_trip Sample.type_str
           (Sample.database [Sample.meta_row "linestring" "NO"] [])
           Sample.lake Sample.unreflected
           "linestring" (SqlInt 4326) (SqlStr "NO")).
  - vm_compute. reflexivity.
  - vm_compute. reflexivity.
  - by_evaluation.
Defined.

(** X6: an empty schema name counts as no schema: the call on a table
    whose schema is the empty text sends the same queries and does the
    same as the call on the table without schema. *)
Theorem reflect_empty_schema
    (type_str : TypeEngine -> string) (inspector : Inspector)
    (name : string) (ci : gmap string PyValue) :
  geometry_type_query type_str
    {| table_schema := Some ""; table_name := name |}
    (default PyNone (ci !! "name"))
  = geometry_type_query type_str
      {| table_schema := None; table_name := name |}
      (default PyNone (ci !! "name")) /\
  call_reflect type_str inspector
    {| table_schema := Some ""; table_name := name |} ci
  = call_reflect type_str inspector
      {| table_schema := None; table_name := name |} ci.
Proof. split; reflexivity. Qed.

(** X7: a dictionary without the key ["name"] is no error: once the guard
    has passed, the call probes the column called [None], that is, the
    first query it sends is the metadata query for the name ["None"]. *)
Theorem reflect_missing_name
    (type_str : TypeEngine -> string) (inspector : Inspector) (table : Table)
    (ci : gmap string PyValue) :
  ci !! "name" = None ->
  isinstance_Geometry_NullType (default PyNone (ci !! "type")) = true ->
  head (queries (call_reflect type_str inspector table ci).1)
    = Some (geometry_type_query type_str table (PyStr "None")).
Proof.
  intros Hname Hg.
  destruct (reflect_cases type_str inspector table ci)
    as [[Hg' _] | [[e ->] | [-> | (s & probed & nv & _ & _ & _ & ->)]]];
    [congruence | | |]; cbn [fst queries head]; now rewrite Hname.
Qed.

Lemma reflect_missing_name_witness :
  head (queries
          (call_reflect Sample.type_str
             (Sample.database [Sample.meta_row "point" "YES"] [])
             Sample.lake (<["type" := PyType NullType]> ∅)).1)
    = Some (geometry_type_query Sample.type_str Sample.lake (PyStr "None")).
Proof.
  apply (reflect_missing_name Sample.type_str
           (Sample.database [Sample.meta_row "point" "YES"] [])
           Sample.lake (<["type" := PyType NullType]> ∅)).
  - vm_compute. reflexivity.
  - vm_compute. reflexivity.
Defined.

(** * Further properties of the registration *)

Section RegistrationFacts.

Variable KW : Type.
Variable functions : gset string.

(** One entry whose function exists: its rule is installed and the rest
    of the mapping follows. *)
Lemma register_mssql_mapping_known (name fn : string)
    (rest : list (string * string))
    (registry : gmap (string * string) (Render KW)) :
  name ∈ functions ->
  register_mssql_mapping functions ((name, fn) :: rest) registry
  = register_mssql_mapping functions rest
      (<[(name, "mssql") := _compile_mssql fn]> registry).
Proof.
  intros Hin. simpl. unfold bind at 1. unfold _compiles_mssql, bind.
  now rewrite (getattr_functions_run functions name registry Hin).
Qed.

(** One entry whose function does not exist: the attribute lookup raises
    and the rest of the mapping is not looked at. *)
Lemma register_mssql_mapping_unknown (name fn : string)
    (rest : list (string * string))
    (registry : gmap (string * string) (Render KW)) :
  name ∉ functions ->
  register_mssql_mapping functions ((name, fn) :: rest) registry
  = (registry, Raised AttributeError).
Proof.
  intros Hin. simpl. unfold bind at 1.
  unfold _compiles_mssql, bind, getattr_functions.
  now rewrite (bool_decide_eq_false_2 _ Hin).
Qed.

(** Registration writes under the dialect name ["mssql"] only, however it
    ends. *)
Lemma register_mssql_mapping_scope (mapping : list (string * string)) :
  forall (registry : gmap (string * string) (Render KW))
         (key : string * string),
    key.2 <> "mssql" ->
    (register_mssql_mapping functions mapping registry).1 !! key
      = registry !! key.
Proof.
  induction mapping as [| [name fn] rest IH]; intros registry key Hkey.
  - reflexivity.
  - destruct (decide (name ∈ functions)) as [Hin | Hin].
    + rewrite (register_mssql_mapping_known name fn rest registry Hin).
      rewrite IH by exact Hkey.
      apply lookup_insert_ne. intros <-. now apply Hkey.
    + now rewrite (register_mssql_mapping_unknown name fn rest registry Hin).
Qed.

(** The dispatch table after a registration that succeeds, key by key. *)
Lemma register_mssql_mapping_lookup (mapping : list (string * string))
    (registry : gmap (string * string) (Render KW))
    (key : string * string) :
  NoDup mapping.*1 ->
  (forall name fn, (name, fn) ∈ mapping -> name ∈ functions) ->
  (exists fn,
     (key.1, fn) ∈ mapping /\ key.2 = "mssql" /\
     (register_mssql_mapping functions mapping registry).1 !! key
       = Some (_compile_mssql fn))
  \/ ((forall name, name ∈ mapping.*1 -> key <> (name, "mssql")) /\
      (register_mssql_mapping functions mapping registry).1 !! key
        = registry !! key).
Proof.
  intros Hnd Hcat.
  destruct (register_mssql_mapping_run KW functions mapping Hcat registry)
    as (_ & Hframe & Hnew).
  destruct key as [k d].
  destruct (decide (d = "mssql" /\ k ∈ mapping.*1)) as [[-> Hk] | Hno].
  - left. apply list_elem_of_fmap in Hk as ([k' fn] & -> & Hin).
    exists fn. repeat split; auto.
  - right. split; [| apply Hframe]; intros name Hname [= -> ->];
      apply Hno; auto.
Qed.

End RegistrationFacts.

(** X8: a mapping that names a function the catalog does not have makes
    the registration raise [AttributeError] at that entry: the entries
    before it are registered and stay so, the entries after it are not
    looked at. *)
Theorem register_mssql_mapping_stops_at_unknown {KW : Type}
    (functions : gset string) (before after : list (string * string))
    (name fn : string) (registry : gmap (string * string) (Render KW)) :
  (forall name' fn', (name', fn') ∈ before -> name' ∈ functions) ->
  name ∉ functions ->
  register_mssql_mapping functions (before ++ (name, fn) :: after) registry
  = ((register_mssql_mapping functions before registry).1,
     Raised AttributeError).
Proof.
  revert registry.
  induction before as [| [c f] before IH]; intros registry Hcat Hbad.
  - now apply register_mssql_mapping_unknown.
  - assert (Hc : c ∈ functions) by (apply (Hcat c f); left).
    simpl app. rewrite !register_mssql_mapping_known by exact Hc.
    apply IH; [| exact Hbad].
    intros name' fn' Hin. apply (Hcat name' fn'). now right.
Qed.

Lemma register_mssql_mapping_stops_at_unknown_witness :
  register_mssql_mapping (KW := unit) Sample.catalog
    ([("ST_AsBinary", "STAsBinary")]
     ++ ("ST_Missing", "STMissing") :: [("ST_AsEWKB", "STAsBinary")]) ∅
  = ((register_mssql_mapping Sample.catalog
        [("ST_AsBinary", "STAsBinary")] ∅).1,
     Raised AttributeError).
Proof.
  apply (register_mssql_mapping_stops_at_unknown Sample.catalog
           [("ST_AsBinary", "STAsBinary")] [("ST_AsEWKB", "STAsBinary")]
           "ST_Missing" "STMissing" ∅).
  - intros name' fn' Hin.
    apply list_elem_of_singleton in Hin as [= -> ->]. by_evaluation.
  - by_evaluation.
Defined.

(** X9: registering the same mapping a second time changes nothing: the
    dispatch table and the outcome are those of the first registration. *)
Theorem register_mssql_mapping_idempotent {KW : Type}
    (functions : gset string) (mapping : list (string * string))
    (registry : gmap (string * string) (Render KW)) :
  NoDup mapping.*1 ->
  (forall name fn, (name, fn) ∈ mapping -> name ∈ functions) ->
  register_mssql_mapping functions mapping
    (register_mssql_mapping functions mapping registry).1
  = register_mssql_mapping functions mapping registry.
Proof.
  intros Hnd Hcat.
  destruct (register_mssql_mapping_run KW functions mapping Hcat registry)
    as (Hok & _ & Hnew).
  destruct (register_mssql_mapping_run KW functions mapping Hcat
              (register_mssql_mapping functions mapping registry).1)
    as (Hok' & _ & _).
  rewrite (surjective_pairing (register_mssql_mapping functions mapping
             (register_mssql_mapping functions mapping registry).1)).
  rewrite (surjective_pairing
             (register_mssql_mapping functions mapping registry)) at 3.
  rewrite Hok, Hok'. f_equal.
  apply map_eq. intros key.
  destruct (register_mssql_mapping_lookup KW functions mapping
              (register_mssql_mapping functions mapping registry).1 key
              Hnd Hcat)
    as [(fn & Hin & Hd & ->) | [_ ->]]; [| reflexivity].
  destruct key as [k d]. simpl in Hin, Hd. subst d.
  symmetry. now apply Hnew.
Qed.

Lemma register_mssql_mapping_idempotent_witness :
  register_mssql_mapping (KW := unit) Sample.catalog
    [("ST_AsBinary", "STAsBinary"); ("ST_AsEWKB", "STAsBinary")]
    (register_mssql_mapping Sample.catalog
       [("ST_AsBinary", "STAsBinary"); ("ST_AsEWKB", "STAsBinary")] ∅).1
  = register_mssql_mapping Sample.catalog
      [("ST_AsBinary", "STAsBinary"); ("ST_AsEWKB", "STAsBinary")] ∅.
Proof.
  refine (register_mssql_mapping_idempotent Sample.catalog
            [("ST_AsBinary", "STAsBinary"); ("ST_AsEWKB", "STAsBinary")]
            ∅ _ _).
  - by_evaluation.
  - intros name fn Hin.
    repeat (apply elem_of_cons in Hin; destruct Hin as [[= -> ->] | Hin];
            [by_evaluation |]).
    inversion Hin.
Defined.

(** X10: the order in which a dictionary yields its entries does not
    matter: two listings of the same entries, each name once, all names
    known, leave the same dispatch table. *)
Theorem register_mssql_mapping_order {KW : Type}
    (functions : gset string) (mapping mapping' : list (string * string))
    (registry : gmap (string * string) (Render KW)) :
  NoDup mapping.*1 ->
  (forall name fn, (name, fn) ∈ mapping -> name ∈ functions) ->
  mapping ≡ₚ mapping' ->
  register_mssql_mapping functions mapping' registry
  = register_mssql_mapping functions mapping registry.
Proof.
  intros Hnd Hcat Hperm.
  assert (Hnd' : NoDup mapping'.*1) by now rewrite <- Hperm.
  assert (Hcat' : forall name fn, (name, fn) ∈ mapping' -> name ∈ functions).
  { intros name fn Hin. apply (Hcat name fn). now rewrite Hperm. }
  destruct (register_mssql_mapping_run KW functions mapping Hcat registry)
    as (Hok & _ & _).
  destruct (register_mssql_mapping_run KW functions mapping' Hcat' registry)
    as (Hok' & Hframe' & Hnew').
  rewrite (surjective_pairing
             (register_mssql_mapping functions mapping' registry)).
  rewrite (surjective_pairing
             (register_mssql_mapping functions mapping registry)).
  rewrite Hok, Hok'. f_equal.
  apply map_eq. intros key.
  destruct (register_mssql_mapping_lookup KW functions mapping registry key
              Hnd Hcat)
    as [(fn & Hin & Hd & ->) | [Hno ->]].
  - destruct key as [k d]. simpl in Hin, Hd. subst d.
    apply Hnew'; [exact Hnd' | now rewrite <- Hperm].
  - apply Hframe'. intros name Hname. apply Hno. now rewrite Hperm.
Qed.

Lemma register_mssql_mapping_order_witness :
  register_mssql_mapping (KW := unit) Sample.catalog
    [("ST_AsEWKB", "STAsBinary"); ("ST_AsBinary", "STAsBinary")] ∅
  = register_mssql_mapping Sample.catalog
      [("ST_AsBinary", "STAsBinary"); ("ST_AsEWKB", "STAsBinary")] ∅.
Proof.
  refine (register_mssql_mapping_order Sample.catalog
            [("ST_AsBinary", "STAsBinary"); ("ST_AsEWKB", "STAsBinary")]
            [("ST_AsEWKB", "STAsBinary"); ("ST_AsBinary", "STAsBinary")]
            ∅ _ _ _).
  - by_evaluation.
  - intros name fn Hin.
    repeat (apply elem_of_cons in Hin; destruct Hin as [[= -> ->] | Hin];
            [by_evaluation |]).
    inversion Hin.
  - apply Permutation_swap.
Defined.

(** X11: the rules a registration installs are for the mssql dialect
    only: for every other dialect the toolkit compiles every element as it
    did before, whether the registration succeeded or raised. *)
Theorem register_mssql_mapping_other_dialects {KW : Type}
    (functions : gset string) (mapping : list (string * string))
    (registry : gmap (string * string) (Render KW))
    (dialect : string) (default : Render KW)
    (compiler : Compiler KW) (kw : KW) (st : CompState) :
  dialect <> "mssql" ->
  compile_element (register_mssql_mapping functions mapping registry).1
    dialect default compiler kw st
  = compile_element registry dialect default compiler kw st.
Proof.
  intros Hd.
  pose proof (register_mssql_mapping_scope KW functions mapping registry
                (cls (element st), dialect) Hd) as Hkey.
  unfold compile_element, bind, get_element. cbv beta iota.
  unfold Render in *. now rewrite Hkey.
Qed.

Lemma register_mssql_mapping_other_dialects_witness :
  compile_element
    (register_mssql_mapping (KW := unit) Sample.catalog
       [("ST_AsBinary", "STAsBinary")] ∅).1
    "postgresql" (fun _ _ => ret "ST_AsBinary(geom)") Sample.compiler tt
    {| element := Sample.call "ST_AsBinary" 4326;
       heap := {[ 0 := ColumnClause "geom" ]} |}
  = compile_element ∅
      "postgresql" (fun _ _ => ret "ST_AsBinary(geom)") Sample.compiler tt
      {| element := Sample.call "ST_AsBinary" 4326;
         heap := {[ 0 := ColumnClause "geom" ]} |}.
Proof.
  refine (register_mssql_mapping_other_dialects Sample.catalog
            [("ST_AsBinary", "STAsBinary")] ∅ "postgresql"
            (fun _ _ => ret "ST_AsBinary(geom)") Sample.compiler tt
            {| element := Sample.call "ST_AsBinary" 4326;
               heap := {[ 0 := ColumnClause "geom" ]} |} _).
  vm_compute. discriminate.
Defined.

(** * Further properties of the import and of the rules *)

(** Importing writes under the dialect name ["mssql"] only, however it
    ends. *)
Lemma import_module_scope {KW : Type} (functions : gset string)
    (registry : gmap (string * string) (Render KW))
    (key : string * string) :
  key.2 <> "mssql" ->
  (import_module functions registry).1 !! key = registry !! key.
Proof.
  intros Hkey.
  pose proof (register_mssql_mapping_scope KW functions _MSSQL_FUNCTIONS
                registry key Hkey) as Hreg.
  unfold import_module, bind at 1.
  destruct (register_mssql_mapping functions _MSSQL_FUNCTIONS registry)
    as [r [[] | e]]; cbn [fst] in Hreg; [| exact Hreg].
  assert (Hne : forall name rule (m : gmap (string * string) (Render KW)),
            (<[(name, "mssql") := rule]> m) !! key = m !! key).
  { intros name rule m. apply lookup_insert_ne. intros <-. now apply Hkey. }
  unfold bind, getattr_functions, compiles, ret, raise.
  repeat case_bool_decide; cbn [fst]; rewrite ?Hne; exact Hreg.
Qed.

(** X12: importing the module installs rules for the mssql dialect only:
    for every other dialect the toolkit compiles every element as it did
    before the import, whether the import succeeded or raised. *)
Theorem import_module_other_dialects {KW : Type}
    (functions : gset string)
    (registry : gmap (string * string) (Render KW))
    (dialect : string) (default : Render KW)
    (compiler : Compiler KW) (kw : KW) (st : CompState) :
  dialect <> "mssql" ->
  compile_element (import_module functions registry).1
    dialect default compiler kw st
  = compile_element registry dialect default compiler kw st.
Proof.
  intros Hd.
  pose proof (import_module_scope functions registry
                (cls (element st), dialect) Hd) as Hkey.
  unfold compile_element, bind, get_element. cbv beta iota.
  unfold Render in *. now rewrite Hkey.
Qed.

Lemma import_module_other_dialects_witness :
  compile_element (import_module (KW := unit) Sample.catalog ∅).1
    "mysql" (fun _ _ => ret "ST_GeomFromText(?)") Sample.compiler tt
    {| element := Sample.call "ST_GeomFromText" 0;
       heap := Sample.one_param (LitStr "POINT(1 2)") |}
  = compile_element ∅
      "mysql" (fun _ _ => ret "ST_GeomFromText(?)") Sample.compiler tt
      {| element := Sample.call "ST_GeomFromText" 0;
         heap := Sample.one_param (LitStr "POINT(1 2)") |}.
Proof.
  refine (import_module_other_dialects Sample.catalog ∅ "mysql"
            (fun _ _ => ret "ST_GeomFromText(?)") Sample.compiler tt
            {| element := Sample.call "ST_GeomFromText" 0;
               heap := Sample.one_param (LitStr "POINT(1 2)") |} _).
  vm_compute. discriminate.
Defined.

(** X13: when [geoalchemy2.functions] lacks one of the six classes the
    module names, the module-level registrations do not complete: they
    end in [AttributeError]. *)
Theorem import_module_missing_class {KW : Type} (functions : gset string)
    (registry : gmap (string * string) (Render KW)) (name : string) :
  name ∈ ["ST_AsBinary"; "ST_AsEWKB"; "ST_GeomFromText";
          "ST_GeomFromEWKT"; "ST_GeomFromWKB"; "ST_GeomFromEWKB"] ->
  name ∉ functions ->
  (import_module functions registry).2 = Raised AttributeError.
Proof.
  intros Hname Hmissing.
  unfold import_module, _MSSQL_FUNCTIONS, register_mssql_mapping,
    _compiles_mssql, bind, getattr_functions, compiles, ret, raise.
  repeat case_bool_decide; cbn [snd]; try reflexivity.
  exfalso. apply Hmissing.
  repeat (apply elem_of_cons in Hname; destruct Hname as [-> | Hname];
          [assumption |]).
  inversion Hname.
Qed.

Lemma import_module_missing_class_witness :
  (import_module (KW := unit)
     {[ "ST_AsBinary"; "ST_AsEWKB"; "ST_GeomFromText"; "ST_GeomFromEWKT";
        "ST_GeomFromWKB" ]} ∅).2 = Raised AttributeError.
Proof.
  apply (import_module_missing_class
           {[ "ST_AsBinary"; "ST_AsEWKB"; "ST_GeomFromText";
              "ST_GeomFromEWKT"; "ST_GeomFromWKB" ]} ∅ "ST_GeomFromEWKB").
  - by_evaluation.
  - by_evaluation.
Defined.

(** X14: once the module is imported, the two binary-output functions
    [ST_AsBinary] and [ST_AsEWKB] both render, for the mssql dialect, as
    the call of the one native method: [(<compiled arguments>).STAsBinary()];
    neither the element nor the clause objects are touched. *)
Theorem import_module_binary_output {KW : Type} (functions : gset string)
    (registry : gmap (string * string) (Render KW))
    (default : Render KW) (compiler : Compiler KW) (kw : KW)
    (el : FunctionElement) (h : gmap nat ClauseObj) :
  (forall name,
     name ∈ ["ST_AsBinary"; "ST_AsEWKB"; "ST_GeomFromText";
             "ST_GeomFromEWKT"; "ST_GeomFromWKB"; "ST_GeomFromEWKB"] ->
     name ∈ functions) ->
  cls el ∈ ["ST_AsBinary"; "ST_AsEWKB"] ->
  compile_element (import_module functions registry).1 "mssql" default
    compiler kw {| element := el; heap := h |}
  = ({| element := el; heap := h |},
     Ok ("(" ++ process compiler h (clauses el) kw ++ ").STAsBinary()")).
Proof.
  intros Hcat Hcls. rewrite (import_module_run KW functions registry Hcat).
  cbn [fst].
  rewrite (compile_element_rule KW compiler kw _ "mssql" default
             (_compile_mssql "STAsBinary")).
  - apply compile_mssql_run.
  - apply elem_of_cons in Hcls as [-> | Hcls];
      [| apply list_elem_of_singleton in Hcls as ->].
    + now rewrite !lookup_insert_ne, lookup_insert_eq by discriminate.
    + now rewrite !lookup_insert_ne, lookup_insert_eq by discriminate.
Qed.

Lemma import_module_binary_output_witness :
  compile_element (import_module (KW := unit) Sample.catalog ∅).1 "mssql"
    (fun _ _ => ret "") Sample.compiler tt
    {| element := Sample.call "ST_AsEWKB" 4326;
       heap := {[ 0 := ColumnClause "geom" ]} |}
  = ({| element := Sample.call "ST_AsEWKB" 4326;
        heap := {[ 0 := ColumnClause "geom" ]} |},
     Ok "(geom).STAsBinary()").
Proof.
  refine (import_module_binary_output Sample.catalog ∅ (fun _ _ => ret "")
            Sample.compiler tt (Sample.call "ST_AsEWKB" 4326)
            {[ 0 := ColumnClause "geom" ]} _ _).
  - intros name Hname.
    repeat (apply elem_of_cons in Hname; destruct Hname as [-> | Hname];
            [by_evaluation |]).
    inversion Hname.
  - by_evaluation.
Defined.

(** X15: the text rule changes no clause object and, of the element,
    the display name only; rendering the element a second time, on the
    state the first rendering left, gives the same text and the same
    state (the display name it sets is the one it then finds). *)
Theorem from_text_rule_idempotent {KW : Type} (compiler : Compiler KW)
    (kw : KW) (st : CompState) :
  heap (_compile_GeomFromText_MsSql compiler kw st).1 = heap st /\
  cls (element (_compile_GeomFromText_MsSql compiler kw st).1)
    = cls (element st) /\
  clauses (element (_compile_GeomFromText_MsSql compiler kw st).1)
    = clauses (element st) /\
  type_srid (element (_compile_GeomFromText_MsSql compiler kw st).1)
    = type_srid (element st) /\
  _compile_GeomFromText_MsSql compiler kw
    (_compile_GeomFromText_MsSql compiler kw st).1
  = _compile_GeomFromText_MsSql compiler kw st.
Proof.
  destruct st as [el h].
  rewrite (compile_text_run KW compiler kw el h).
  cbn [fst heap element cls clauses type_srid].
  repeat split. now rewrite compile_text_run.
Qed.

(** X16: rendering a binary constructor a second time gives the same text
    and leaves the same state: the payload the first rendering turned
    into bytes stays as it is. *)
Theorem from_binary_rule_idempotent {KW : Type} (compiler : Compiler KW)
    (kw : KW) (el : FunctionElement) (h : gmap nat ClauseObj)
    (a : nat) (rest : list nat) (v : Literal) :
  clauses el = a :: rest ->
  h !! a = Some (BindParameter v) ->
  _compile_GeomFromWKB_MsSql compiler kw
    (_compile_GeomFromWKB_MsSql compiler kw
       {| element := el; heap := h |}).1
  = _compile_GeomFromWKB_MsSql compiler kw {| element := el; heap := h |}.
Proof.
  intros Hcl Hh.
  rewrite (compile_wkb_run KW compiler kw el h a rest v Hcl Hh).
  cbn [fst].
  set (el' := {| cls := cls el;
                 identifier := "geography::STGeomFromWKB";
                 clauses := clauses el;
                 type_srid := type_srid el |}).
  destruct v as [| t | z | content | content].
  1-4: now rewrite (compile_wkb_run KW compiler kw el' h a rest _ Hcl Hh).
  now rewrite (compile_wkb_run KW compiler kw el'
                 (<[a := BindParameter (LitBytes content)]> h) a rest
                 (LitBytes content) Hcl (lookup_insert_eq _ _ _)).
Qed.

Lemma from_binary_rule_idempotent_witness :
  _compile_GeomFromWKB_MsSql Sample.compiler tt
    (_compile_GeomFromWKB_MsSql Sample.compiler tt
       {| element := Sample.call "ST_GeomFromEWKB" 3857;
          heap := Sample.one_param (LitMemoryview [Byte.x01]) |}).1
  = _compile_GeomFromWKB_MsSql Sample.compiler tt
      {| element := Sample.call "ST_GeomFromEWKB" 3857;
         heap := Sample.one_param (LitMemoryview [Byte.x01]) |}.
Proof.
  apply (from_binary_rule_idempotent Sample.compiler tt
           (Sample.call "ST_GeomFromEWKB" 3857)
           (Sample.one_param (LitMemoryview [Byte.x01])) 0 []
           (LitMemoryview [Byte.x01])).
  - reflexivity.
  - vm_compute. reflexivity.
Defined.

(** X17: the binary rule needs a literal in first position: on an element
    without arguments it raises [IndexError], on an element whose first
    argument is a column reference it raises [AttributeError]; in both
    cases the display name has already been rewritten when the exception
    leaves, and no clause object has changed. *)
Theorem from_binary_rule_failure {KW : Type} (compiler : Compiler KW)
    (kw : KW) (el : FunctionElement) (h : gmap nat ClauseObj)
    (e : PyError) :
  (clauses el = [] /\ e = IndexError) \/
  (exists a rest c,
     clauses el = a :: rest /\ h !! a = Some (ColumnClause c) /\
     e = AttributeError) ->
  _compile_GeomFromWKB_MsSql compiler kw {| element := el; heap := h |}
  = ({| element := {| cls := cls el;
                      identifier := "geography::STGeomFromWKB";
                      clauses := clauses el;
                      type_srid := type_srid el |};
        heap := h |}, Raised e).
Proof.
  unfold _compile_GeomFromWKB_MsSql, bind, set_identifier, clause_at,
    get_value.
  intros [[Hcl ->] | (a & rest & c & Hcl & Hh & ->)]; simpl; rewrite Hcl.
  - reflexivity.
  - simpl. now rewrite Hh.
Qed.

Lemma from_binary_rule_failure_witness :
  _compile_GeomFromWKB_MsSql Sample.compiler tt
    {| element := Sample.call "ST_GeomFromWKB" 4326;
       heap := {[ 0 := ColumnClause "wkb" ]} |}
  = ({| element := {| cls := "ST_GeomFromWKB";
                      identifier := "geography::STGeomFromWKB";
                      clauses := [0];
                      type_srid := 4326 |};
        heap := {[ 0 := ColumnClause "wkb" ]} |}, Raised AttributeError).
Proof.
  apply (from_binary_rule_failure Sample.compiler tt
           (Sample.call "ST_GeomFromWKB" 4326)
           {[ 0 := ColumnClause "wkb" ]} AttributeError).
  right. exists 0, [], "wkb". repeat split.
Defined.

(** X18: whatever its outcome, the binary rule changes no clause object
    other than the first argument, and of the element it changes the
    display name only. *)
Theorem from_binary_rule_frame {KW : Type} (compiler : Compiler KW)
    (kw : KW) (el : FunctionElement) (h : gmap nat ClauseObj) (b : nat) :
  clauses el !! 0 <> Some b ->
  heap (_compile_GeomFromWKB_MsSql compiler kw
          {| element := el; heap := h |}).1 !! b = h !! b /\
  cls (element (_compile_GeomFromWKB_MsSql compiler kw
                  {| element := el; heap := h |}).1) = cls el /\
  clauses (element (_compile_GeomFromWKB_MsSql compiler kw
                      {| element := el; heap := h |}).1) = clauses el /\
  type_srid (element (_compile_GeomFromWKB_MsSql compiler kw
                        {| element := el; heap := h |}).1) = type_srid el.
Proof.
  intros Hb.
  destruct (clauses el) as [| a rest] eqn:Hcl.
  - unfold _compile_GeomFromWKB_MsSql, bind, set_identifier, clause_at.
    simpl. now rewrite Hcl.
  - assert (Hab : a <> b) by (intros ->; now apply Hb).
    destruct (h !! a) as [[v | c] |] eqn:Hh.
    + rewrite (compile_wkb_run KW compiler kw el h a rest v Hcl Hh).
      cbn [fst heap element cls clauses type_srid]. rewrite Hcl.
      repeat split. destruct v; try reflexivity.
      now apply lookup_insert_ne.
    + unfold _compile_GeomFromWKB_MsSql, bind, set_identifier, clause_at,
        get_value. simpl. rewrite Hcl. simpl. now rewrite Hh.
    + unfold _compile_GeomFromWKB_MsSql, bind, set_identifier, clause_at,
        get_value. simpl. rewrite Hcl. simpl. now rewrite Hh.
Qed.

Lemma from_binary_rule_frame_witness :
  heap (_compile_GeomFromWKB_MsSql Sample.compiler tt
          {| element := {| cls := "ST_GeomFromWKB";
                           identifier := "ST_GeomFromWKB";
                           clauses := [0; 1];
                           type_srid := 4326 |};
             heap := <[1 := BindParameter (LitMemoryview [Byte.x02])]>
                       (Sample.one_param (LitMemoryview [Byte.x01])) |}).1
    !! 1
    = (<[1 := BindParameter (LitMemoryview [Byte.x02])]>
         (Sample.one_param (LitMemoryview [Byte.x01]))) !! 1 /\
  cls (element (_compile_GeomFromWKB_MsSql Sample.compiler tt
                  {| element := {| cls := "ST_GeomFromWKB";
                                   identifier := "ST_GeomFromWKB";
                                   clauses := [0; 1];
                                   type_srid := 4326 |};
                     heap := <[1 := BindParameter (LitMemoryview [Byte.x02])]>
                               (Sample.one_param
                                  (LitMemoryview [Byte.x01])) |}).1)
    = "ST_GeomFromWKB" /\
  clauses (element (_compile_GeomFromWKB_MsSql Sample.compiler tt
                      {| element := {| cls := "ST_GeomFromWKB";
                                       identifier := "ST_GeomFromWKB";
                                       clauses := [0; 1];
                                       type_srid := 4326 |};
                         heap :=
                           <[1 := BindParameter (LitMemoryview [Byte.x02])]>
                             (Sample.one_param
                                (LitMemoryview [Byte.x01])) |}).1)
    = [0; 1] /\
  type_srid (element (_compile_GeomFromWKB_MsSql Sample.compiler tt
                        {| element := {| cls := "ST_GeomFromWKB";
                                         identifier := "ST_GeomFromWKB";
                                         clauses := [0; 1];
                                         type_srid := 4326 |};
                           heap :=
                             <[1 := BindParameter (LitMemoryview [Byte.x02])]>
                               (Sample.one_param
                                  (LitMemoryview [Byte.x01])) |}).1)
    = 4326%Z.
Proof.
  refine (from_binary_rule_frame Sample.compiler tt
            {| cls := "ST_GeomFromWKB";
               identifier := "ST_GeomFromWKB";
               clauses := [0; 1];
               type_srid := 4326 |}
            (<[1 := BindParameter (LitMemoryview [Byte.x02])]>
               (Sample.one_param (LitMemoryview [Byte.x01]))) 1 _).
  vm_compute. discriminate.
Defined.
